(** * MedMate client: request runner, API gateway and auth coordinator

    A shallow embedding of the request lifecycle layer of the MedMate
    front end: the [ApiClient] class of [lib/api.ts] (the request runner
    [requestWithTimeout] and one method per backend operation) and the
    [AuthProvider] of [contexts/AuthContext.tsx] ([tryAutoLogin],
    [checkAuth], [login], [register], [logout]).

    The code is asynchronous TypeScript that talks to a server, to
    [localStorage] and to React state.  It is embedded as functions in a
    state-and-exception monad over a [World]: every [await] is a bind,
    [try]/[catch]/[finally] are combinators, and what the backend does
    for the successive [fetch] calls is a script held in the world.

    Modelling choices. The network settles every request after a finite
    latency, and a [fetch] whose signal aborts after [ms] milliseconds
    rejects with the [AbortError] when that latency is [ms] or more.
    [response.json()] settles; the state setters, [console.log] and
    [toast] complete without throwing. [localStorage] is the browser's:
    where the page is denied access to it every operation throws, and
    where its quota is exhausted [setItem] throws ([Storage]).
    [JSON.parse], [JSON.stringify] and the base URL belong to the
    runtime and are parameters of the development ([Runtime]). *)

From Stdlib Require Import ZArith Bool.
From stdpp Require Import ssreflect base option list strings pretty gmap.

#[local] Set Warnings "-register-all".
Local Open Scope string_scope.
Local Open Scope list_scope.
Local Open Scope Z_scope.

(** ** JavaScript values

    What [response.json()] and [JSON.parse] produce, together with
    [undefined], which property access yields for a missing field.
    A number is modelled by the integer it holds; no operation of the
    layer computes with a numeric payload, and how a number is written
    out is left to the runtime ([Number_toString]). An object is the
    list of its own properties, looked up by name. *)

Inductive JsVal : Type :=
| JUndefined
| JNull
| JBool (b : bool)
| JNum (n : Z)
| JStr (s : string)
| JArr (items : list JsVal)
| JObj (fields : list (string * JsVal)).

(** [!v] is [negb (truthy v)]: [undefined], [null], [false], [0] and the
    empty string are falsy, every object and array is truthy. *)
Definition truthy (v : JsVal) : bool :=
  match v with
  | JUndefined | JNull => false
  | JBool b => b
  | JNum n => negb (n =? 0)
  | JStr s => negb (String.eqb s EmptyString)
  | JArr _ | JObj _ => true
  end.

Fixpoint assoc (p : string) (fields : list (string * JsVal)) : JsVal :=
  match fields with
  | [] => JUndefined
  | (k, v) :: rest => if String.eqb k p then v else assoc p rest
  end.

Fixpoint join_with (sep : string) (parts : list string) : string :=
  match parts with
  | [] => EmptyString
  | [s] => s
  | s :: rest => s +:+ sep +:+ join_with sep rest
  end.

(** ** Thrown values

    [catch (error)] receives any value; the code tells [Error] instances
    (which carry a [name] and a [message]) from everything else with
    [error instanceof Error]. *)

Inductive Thrown : Type :=
| ErrorObj (name message : string)
| NonError (v : JsVal).

Definition instanceof_Error (e : Thrown) : bool :=
  match e with ErrorObj _ _ => true | NonError _ => false end.

(** [error.name] and [error.message], read of [Error] instances only. *)
Definition error_name (e : Thrown) : string :=
  match e with ErrorObj name _ => name | NonError _ => EmptyString end.

Definition error_message (e : Thrown) : string :=
  match e with ErrorObj _ message => message | NonError _ => EmptyString end.

(** [new Error(message)] *)
Definition new_Error (message : string) : Thrown := ErrorObj "Error" message.

(** The [DOMException] with which [fetch] rejects once its signal aborts. *)
Definition AbortError : Thrown := ErrorObj "AbortError" "signal is aborted without reason".

(** Reading a property of [undefined] or [null] ([base] names which). *)
Definition TypeError_read (base p : string) : Thrown :=
  ErrorObj "TypeError"
    ("Cannot read properties of " +:+ base +:+ " (reading '" +:+ p +:+ "')").

Inductive Completion (A : Type) : Type :=
| Normal (a : A)
| Throw (e : Thrown).
Arguments Normal {A} a.
Arguments Throw {A} e.

(** ** Requests *)

Record File : Type := mkFile { file_name : string; file_type : string; file_size : Z }.

Inductive FormDataValue : Type :=
| FormString (s : string)
| FormFile (f : File).

(** A [FormData] is the list of its entries in the order of the [append] calls. *)
Definition FormData : Type := list (string * FormDataValue).

Inductive BodyInit : Type :=
| BodyText (s : string)
| BodyForm (fd : FormData).

(** [RequestInit]: every member is optional. [signal] holds the delay in
    milliseconds after which the controller of the request was told to
    abort ([setTimeout(() => controller.abort(), ms)]). *)
Record RequestInit : Type := mkInit {
  method : option string;
  body : option BodyInit;
  headers : option (gmap string string);
  credentials : option string;
  signal : option Z
}.

Definition no_options : RequestInit :=
  {| method := None; body := None; headers := None; credentials := None; signal := None |}.

(** [options.body instanceof FormData] *)
Definition body_is_FormData (b : option BodyInit) : bool :=
  match b with Some (BodyForm _) => true | _ => false end.

Record Response : Type := mkResponse {
  status : Z;
  (** what [response.json()] settles to: the parsed body, or the error it
      rejects with when the body is not JSON *)
  json : Completion JsVal
}.

(** [response.ok]: the status is in the range 200-299. *)
Definition ok (r : Response) : bool := (200 <=? status r) && (status r <=? 299).

(** What the network does with one request: the response arrives, or the
    request fails, [latency] milliseconds after it was sent. *)
Inductive NetOutcome : Type :=
| Responds (latency : Z) (r : Response)
| Fails (latency : Z) (e : Thrown).

Definition latency_of (o : NetOutcome) : Z :=
  match o with Responds t _ => t | Fails t _ => t end.

(** A request nobody answers: it outlasts every budget below. *)
Definition Unanswered : NetOutcome :=
  Fails 86400000 (ErrorObj "TypeError" "Failed to fetch").

Record FetchCall : Type := mkCall { call_url : string; call_init : RequestInit }.

(** ** The browser's storage

    [localStorage] holds string items by key. Whether the page may use
    it is the browser's decision: with site data blocked every access
    throws a [DOMException] (a [SecurityError]), and with the quota
    exhausted [setItem] throws one (a [QuotaExceededError]) while reading
    and removing still work. The exception is part of the storage, so
    that nothing below depends on its wording. *)

Inductive Storage : Type :=
| Denied (error : Thrown)
| Available (full : option Thrown) (items : gmap string string).

(** What the page can read: a storage it is denied holds nothing for it. *)
#[export] Instance Storage_lookup : Lookup string string Storage := fun key s =>
  match s with
  | Denied _ => None
  | Available _ items => items !! key
  end.

(** The storage once [key] holds [value], and once [key] is gone; a
    storage the page is denied is not changed by it. *)
#[export] Instance Storage_insert : Insert string string Storage := fun key value s =>
  match s with
  | Denied e => Denied e
  | Available full items => Available full (<[key := value]> items)
  end.

#[export] Instance Storage_delete : Delete string Storage := fun key s =>
  match s with
  | Denied e => Denied e
  | Available full items => Available full (delete key items)
  end.

(** A usable storage without items, and one with a single item. *)
#[export] Instance Storage_empty : Empty Storage := Available None ∅.

#[export] Instance Storage_singleton : SingletonM string string Storage := fun key value =>
  Available None {[key := value]}.

(** The exception that reading or removing an item throws, if any, and
    the one that writing an item throws, if any. *)
Definition access_error (s : Storage) : option Thrown :=
  match s with
  | Denied e => Some e
  | Available _ _ => None
  end.

Definition write_error (s : Storage) : option Thrown :=
  match s with
  | Denied e => Some e
  | Available full _ => full
  end.

(** ** The world and the monad of asynchronous code *)

Inductive Toast : Type :=
| ToastSuccess (message : string)
| ToastError (message : string).

Record World : Type := mkWorld {
  (** React state of [AuthProvider] *)
  user : JsVal;
  loading : bool;
  (** the browser's [localStorage] *)
  localStorage : Storage;
  (** what the network will do with the coming [fetch] calls, in order *)
  network : list NetOutcome;
  (** the [fetch] calls made so far, oldest first *)
  fetched : list FetchCall;
  console : list string;
  toasts : list Toast
}.

(** An asynchronous function body: it runs from a world to a completion
    (a value, or a thrown value) and the world it leaves. *)
Definition Async (A : Type) : Type := World -> Completion A * World.

#[export] Instance Async_ret : MRet Async := fun A a w => (Normal a, w).

#[export] Instance Async_bind : MBind Async := fun A B k m w =>
  match m w with
  | (Normal a, w') => k a w'
  | (Throw e, w') => (Throw e, w')
  end.

Definition throw {A : Type} (e : Thrown) : Async A := fun w => (Throw e, w).

(** [try { body } catch (error) { handler error }] *)
Definition try_catch {A : Type} (body : Async A) (handler : Thrown -> Async A) : Async A :=
  fun w =>
    match body w with
    | (Normal a, w') => (Normal a, w')
    | (Throw e, w') => handler e w'
    end.

(** [try { body } finally { cleanup }]: the cleanup runs whatever the
    body did, and the body's completion stands unless the cleanup throws. *)
Definition try_finally {A : Type} (body : Async A) (cleanup : Async unit) : Async A :=
  fun w =>
    let (c, w') := body w in
    match cleanup w' with
    | (Normal _, w'') => (c, w'')
    | (Throw e, w'') => (Throw e, w'')
    end.

(** The member [p] of a value that has members at all: of the names
    the layer reads ([error], [user], [authenticated], [username],
    [password]) an object has those it holds and any other value none. *)
Definition member (p : string) (v : JsVal) : JsVal :=
  match v with
  | JObj fields => assoc p fields
  | _ => JUndefined
  end.

(** [v.p]: reading a member of [undefined] or [null] throws. *)
Definition get_prop (v : JsVal) (p : string) : Async JsVal :=
  match v with
  | JUndefined => throw (TypeError_read "undefined" p)
  | JNull => throw (TypeError_read "null" p)
  | _ => mret (member p v)
  end.

(** The state setters and logs, as changes of the world. *)
Definition set_user (v : JsVal) (w : World) : World :=
  {| user := v; loading := loading w; localStorage := localStorage w;
     network := network w; fetched := fetched w; console := console w;
     toasts := toasts w |}.

Definition set_loading (b : bool) (w : World) : World :=
  {| user := user w; loading := b; localStorage := localStorage w;
     network := network w; fetched := fetched w; console := console w;
     toasts := toasts w |}.

Definition with_storage (f : Storage -> Storage) (w : World) : World :=
  {| user := user w; loading := loading w; localStorage := f (localStorage w);
     network := network w; fetched := fetched w; console := console w;
     toasts := toasts w |}.

Definition logged (line : string) (w : World) : World :=
  {| user := user w; loading := loading w; localStorage := localStorage w;
     network := network w; fetched := fetched w; console := console w ++ [line];
     toasts := toasts w |}.

Definition toasted (t : Toast) (w : World) : World :=
  {| user := user w; loading := loading w; localStorage := localStorage w;
     network := network w; fetched := fetched w; console := console w;
     toasts := toasts w ++ [t] |}.

Definition setUser (v : JsVal) : Async unit := fun w => (Normal tt, set_user v w).

Definition setLoading (b : bool) : Async unit := fun w => (Normal tt, set_loading b w).

(** [localStorage.getItem(key)]: [None] stands for [null]. *)
Definition localStorage_getItem (key : string) : Async (option string) := fun w =>
  match access_error (localStorage w) with
  | Some e => (Throw e, w)
  | None => (Normal (localStorage w !! key), w)
  end.

Definition localStorage_setItem (key value : string) : Async unit := fun w =>
  match write_error (localStorage w) with
  | Some e => (Throw e, w)
  | None => (Normal tt, with_storage (insert key value) w)
  end.

Definition localStorage_removeItem (key : string) : Async unit := fun w =>
  match access_error (localStorage w) with
  | Some e => (Throw e, w)
  | None => (Normal tt, with_storage (delete key) w)
  end.

Definition console_log (line : string) : Async unit := fun w => (Normal tt, logged line w).

Definition toast (t : Toast) : Async unit := fun w => (Normal tt, toasted t w).

(** The next outcome of the network script; a script that has run out
    leaves the request unanswered. *)
Definition next_outcome (w : World) : NetOutcome := hd Unanswered (network w).

(** The abort timer of a request wins the race when the network has
    not settled the request by the time it fires. *)
Definition timer_fires_first (init : RequestInit) (o : NetOutcome) : bool :=
  match signal init with
  | Some ms => ms <=? latency_of o
  | None => false
  end.

(** The world once a [fetch] call has gone out and has been settled:
    the call is on record and its outcome is off the script. *)
Definition record_fetch (call : FetchCall) (w : World) : World :=
  {| user := user w; loading := loading w; localStorage := localStorage w;
     network := tl (network w);
     fetched := fetched w ++ [call];
     console := console w; toasts := toasts w |}.

(** How a request settles: as the network says, unless its signal
    aborts first, in which case [fetch] rejects with the [AbortError]. *)
Definition settle (init : RequestInit) (o : NetOutcome) : Completion Response :=
  if timer_fires_first init o then Throw AbortError
  else match o with
       | Responds _ r => Normal r
       | Fails _ e => Throw e
       end.

(** [fetch(url, init)]: records the call and consumes one outcome of
    the script, which settles it. *)
Definition fetch (url : string) (init : RequestInit) : Async Response := fun w =>
  (settle init (next_outcome w), record_fetch (mkCall url init) w).

(** [response.json()] *)
Definition Response_json (r : Response) : Async JsVal := fun w => (json r, w).

(** The JavaScript runtime and the build environment: [JSON.parse]
    ([None] when it throws a [SyntaxError]), [JSON.stringify], the
    conversion of a number to a string and the base URL that
    [import.meta.env] resolves to. *)
Class Runtime : Type := {
  JSON_parse : string -> option JsVal;
  JSON_stringify : JsVal -> string;
  Number_toString : Z -> string;
  API_BASE_URL : string;
  (** the empty string is not a JSON text *)
  JSON_parse_empty : JSON_parse EmptyString = None;
  (** an integer that a number holds exactly is written with its digits;
      larger ones are written as the runtime writes them (in exponent
      form at the latest from 1e21) *)
  Number_toString_safe : forall n,
    -9007199254740991 <= n <= 9007199254740991 -> Number_toString n = pretty n
}.

(** [String(v)], as [new Error(v)] and a template literal apply it. *)
Fixpoint ToString `{Runtime} (v : JsVal) : string :=
  match v with
  | JUndefined => "undefined"
  | JNull => "null"
  | JBool true => "true"
  | JBool false => "false"
  | JNum n => Number_toString n
  | JStr s => s
  | JArr items =>
      join_with ","
        (map (fun x => match x with
                       | JUndefined | JNull => EmptyString
                       | _ => ToString x
                       end) items)
  | JObj _ => "[object Object]"
  end.

Definition SyntaxError : Thrown := ErrorObj "SyntaxError" "Unexpected token in JSON".

Definition JSON_parse_or_throw `{Runtime} (text : string) : Async JsVal :=
  match JSON_parse text with
  | Some v => mret v
  | None => throw SyntaxError
  end.

(** [a || b] on values *)
Definition js_or (a b : JsVal) : JsVal := if truthy a then a else b.

(** [{...a, ...b}] on header objects: the keys of [b] override those of [a]. *)
Definition spread (a b : gmap string string) : gmap string string := b ∪ a.

(** ** The API client ([lib/api.ts]) *)

Module ApiClient.

Record t : Type := new { baseUrl : string }.

Section Methods.
Context `{Runtime}.
Variable this : t.

Definition requestWithTimeout (endpoint : string) (options : RequestInit) (timeoutMs : Z)
  : Async JsVal :=
  let url := baseUrl this +:+ endpoint in
  let isFormData := body_is_FormData (body options) in
  let config :=
    {| method := method options;
       body := body options;
       signal := signal options;
       credentials := Some "include";
       headers := Some (spread (if isFormData then ∅
                                else {["Content-Type" := "application/json"]})
                               (default ∅ (headers options))) |} in
  try_catch
    ((* controller = new AbortController();
        timeoutId = setTimeout(() => controller.abort(), timeoutMs) *)
     response ← fetch url {| method := method config; body := body config;
                             headers := headers config;
                             credentials := credentials config;
                             signal := Some timeoutMs |};
     (* clearTimeout(timeoutId) *)
     data ← Response_json response;
     if negb (ok response) then
       error ← get_prop data "error";
       throw (new_Error (ToString (js_or error (JStr "Request failed"))))
     else mret data)
    (fun error =>
       if instanceof_Error error then
         if String.eqb (error_name error) "AbortError" then
           throw (new_Error "The request is taking longer than expected. Please try again.")
         else throw error
       else throw (new_Error "Network error occurred")).

Definition request (endpoint : string) (options : RequestInit) : Async JsVal :=
  requestWithTimeout endpoint options 10000.

(** [{ method, body: JSON.stringify(payload) }] *)
Definition json_request (verb : string) (payload : JsVal) : RequestInit :=
  {| method := Some verb; body := Some (BodyText (JSON_stringify payload));
     headers := None; credentials := None; signal := None |}.

Definition bare_request (verb : string) : RequestInit :=
  {| method := Some verb; body := None; headers := None; credentials := None;
     signal := None |}.

(** *** Authentication *)

Definition register (username email password : string) : Async JsVal :=
  request "/api/register"
    (json_request "POST" (JObj [("username", JStr username); ("email", JStr email);
                                ("password", JStr password)])).

Definition login (username password : JsVal) : Async JsVal :=
  request "/api/login"
    (json_request "POST" (JObj [("username", username); ("password", password)])).

Definition logout : Async JsVal :=
  request "/api/logout" (bare_request "POST").

Definition checkAuth : Async JsVal :=
  requestWithTimeout "/api/check-auth" no_options 5000.

Definition forgotPassword (email : string) : Async JsVal :=
  request "/api/forgot-password" (json_request "POST" (JObj [("email", JStr email)])).

Definition resetPassword (token password : string) : Async JsVal :=
  request "/api/reset-password"
    (json_request "POST" (JObj [("token", JStr token); ("password", JStr password)])).

Definition verifyResetToken (token : string) : Async JsVal :=
  request "/api/verify-reset-token" (json_request "POST" (JObj [("token", JStr token)])).

(** *** Diagnosis *)

Definition diagnose (symptoms : string) : Async JsVal :=
  requestWithTimeout "/api/diagnose"
    (json_request "POST" (JObj [("symptoms", JStr symptoms)])) 60000.

(** [formData.append(name, value)] *)
Definition FormData_append (fd : FormData) (name : string) (value : FormDataValue) : FormData :=
  fd ++ [(name, value)].

(** The payload of [diagnoseImage]; the optional [symptoms] is
    [undefined] ([None]) or a string, and [if (symptoms)] tests it. *)
Definition diagnoseImage_formData (image : File) (symptoms : option string) : FormData :=
  let formData := FormData_append [] "image" (FormFile image) in
  match symptoms with
  | Some s =>
      if truthy (JStr s) then FormData_append formData "symptoms" (FormString s)
      else formData
  | None => formData
  end.

Definition diagnoseImage (image : File) (symptoms : option string) : Async JsVal :=
  let formData := diagnoseImage_formData image symptoms in
  (* controller = new AbortController();
     timeoutId = setTimeout(() => controller.abort(), 90000) *)
  try_catch
    (response ← fetch (baseUrl this +:+ "/api/diagnose-image")
                  {| method := Some "POST"; credentials := Some "include";
                     body := Some (BodyForm formData); headers := None;
                     signal := Some 90000 |};
     (* clearTimeout(timeoutId) *)
     data ← Response_json response;
     if negb (ok response) then
       error ← get_prop data "error";
       throw (new_Error (ToString (js_or error (JStr "Image analysis failed"))))
     else mret data)
    (fun error =>
       (* clearTimeout(timeoutId) *)
       if instanceof_Error error then
         if String.eqb (error_name error) "AbortError" then
           throw (new_Error "Image analysis timeout - please try again")
         else throw error
       else throw (new_Error "Network error occurred")).

Definition getDiagnosisHistory (page perPage : option Z) : Async JsVal :=
  requestWithTimeout
    ("/api/diagnosis-history?page=" +:+ Number_toString (default 1 page)
       +:+ "&per_page=" +:+ Number_toString (default 10 perPage))
    no_options 30000.

(** *** Chat *)

Definition sendChatMessage (message : string) : Async JsVal :=
  requestWithTimeout "/api/chat"
    (json_request "POST" (JObj [("message", JStr message)])) 30000.

Definition getChatHistory (page perPage : option Z) : Async JsVal :=
  requestWithTimeout
    ("/api/chat-history?page=" +:+ Number_toString (default 1 page)
       +:+ "&per_page=" +:+ Number_toString (default 20 perPage))
    no_options 30000.

(** *** Hospital finder *)

Definition geocodeCity (city : string) : Async JsVal :=
  request "/api/geocode-city" (json_request "POST" (JObj [("city", JStr city)])).

Definition findNearbyHospitals (latitude longitude : Z) (radius : option Z) : Async JsVal :=
  request "/api/nearby-hospitals"
    (json_request "POST" (JObj [("latitude", JNum latitude); ("longitude", JNum longitude);
                                ("radius", JNum (default 5000 radius))])).

Definition getHospitalDetails (placeId : string) : Async JsVal :=
  request ("/api/hospital-details/" +:+ placeId) no_options.

(** *** Voice *)

Definition voiceToText (text : string) : Async JsVal :=
  request "/api/voice-to-text" (json_request "POST" (JObj [("text", JStr text)])).

Definition textToSpeech (text : string) : Async JsVal :=
  request "/api/text-to-speech" (json_request "POST" (JObj [("text", JStr text)])).

Definition getVoiceStatus : Async JsVal := request "/api/voice/status" no_options.

(** *** Health check *)

Definition healthCheck : Async JsVal := request "/api/health" no_options.

(** *** Profile management *)

Definition getProfile : Async JsVal := request "/api/profile" no_options.

Definition updateProfile (data : JsVal) : Async JsVal :=
  request "/api/profile" (json_request "PUT" data).

Definition uploadProfilePicture (file : File) : Async JsVal :=
  let formData := [("image", FormFile file)] in
  requestWithTimeout "/api/profile/picture"
    {| method := Some "POST"; body := Some (BodyForm formData); headers := None;
       credentials := None; signal := None |}
    30000.

(** *** Settings *)

Definition deleteChatHistory : Async JsVal :=
  request "/api/settings/delete-chat-history" (bare_request "DELETE").

Definition deleteDiagnosisHistory : Async JsVal :=
  request "/api/settings/delete-diagnosis-history" (bare_request "DELETE").

(** *** Feedback *)

Definition submitFeedback (name email message : string) : Async JsVal :=
  request "/api/feedback"
    (json_request "POST" (JObj [("name", JStr name); ("email", JStr email);
                                ("message", JStr message)])).

End Methods.
End ApiClient.

(** [export const api = new ApiClient(API_BASE_URL)] *)
Definition api `{Runtime} : ApiClient.t := ApiClient.new API_BASE_URL.

(** A call with more arguments than the function declares parameters:
    JavaScript evaluates the surplus argument and discards it. *)
Definition call_with_surplus {A B : Type} (call : A) (surplus : B) : A := call.

(** ** The auth coordinator ([contexts/AuthContext.tsx]) *)

Module AuthContext.

Definition STORAGE_KEY : string := "medmate_remember_me".

Section Provider.
Context `{Runtime}.

Definition tryAutoLogin : Async unit :=
  try_catch
    (stored ← localStorage_getItem STORAGE_KEY;
     match stored with
     | None => mret tt
     | Some text =>
         if negb (truthy (JStr text)) then mret tt
         else
           credentials ← JSON_parse_or_throw text;
           username ← get_prop credentials "username";
           incomplete ← (if negb (truthy username) then mret true
                         else password ← get_prop credentials "password";
                              mret (negb (truthy password)));
           if (incomplete : bool) then localStorage_removeItem STORAGE_KEY
           else
             username ← get_prop credentials "username";
             password ← get_prop credentials "password";
             response ← call_with_surplus (ApiClient.login api username password)
                          (JBool true);
             u ← get_prop response "user";
             setUser u;;
             console_log "✅ Auto-login successful"
     end)
    (fun error =>
       localStorage_removeItem STORAGE_KEY;;
       console_log "Auto-login failed, credentials cleared").

Definition checkAuth : Async unit :=
  try_finally
    (try_catch
       (response ← ApiClient.checkAuth api;
        authenticated ← get_prop response "authenticated";
        if truthy authenticated then
          u ← get_prop response "user";
          setUser u
        else
          setUser JNull;;
          tryAutoLogin)
       (fun error =>
          setUser JNull;;
          tryAutoLogin))
    (setLoading false).

(** [error instanceof Error ? error.message : fallback] *)
Definition message_or (error : Thrown) (fallback : string) : string :=
  if instanceof_Error error then error_message error else fallback.

Definition login (username password : string) (rememberMe : option bool) : Async unit :=
  let rememberMe := default false rememberMe in
  try_catch
    (response ← call_with_surplus
                  (ApiClient.login api (JStr username) (JStr password))
                  (JBool rememberMe);
     u ← get_prop response "user";
     setUser u;;
     (if rememberMe then
        let credentials := JObj [("username", JStr username); ("password", JStr password)] in
        localStorage_setItem STORAGE_KEY (JSON_stringify credentials);;
        console_log "✅ Credentials stored for auto-login"
      else mret tt);;
     toast (ToastSuccess "Welcome back!"))
    (fun error =>
       toast (ToastError (message_or error "Login failed"));;
       throw error).

Definition register (username email password : string) : Async unit :=
  try_catch
    (response ← ApiClient.register api username email password;
     u ← get_prop response "user";
     setUser u;;
     toast (ToastSuccess "Account created successfully!"))
    (fun error =>
       toast (ToastError (message_or error "Registration failed"));;
       throw error).

Definition logout : Async unit :=
  try_catch
    (ApiClient.logout api;;
     setUser JNull;;
     localStorage_removeItem STORAGE_KEY;;
     console_log "✅ Credentials cleared on logout";;
     toast (ToastSuccess "Logged out successfully"))
    (fun error => toast (ToastError "Logout failed")).

End Provider.
End AuthContext.

(** ** Calls of the gateway

    One constructor per public method of [ApiClient] with its arguments;
    [invoke] runs the method on the exported client [api]. *)

Inductive GatewayCall : Type :=
| Register (username email password : string)
| Login (username password : JsVal)
| Logout
| CheckAuth
| ForgotPassword (email : string)
| ResetPassword (token password : string)
| VerifyResetToken (token : string)
| Diagnose (symptoms : string)
| DiagnoseImage (image : File) (symptoms : option string)
| GetDiagnosisHistory (page perPage : option Z)
| SendChatMessage (message : string)
| GetChatHistory (page perPage : option Z)
| GeocodeCity (city : string)
| FindNearbyHospitals (latitude longitude : Z) (radius : option Z)
| GetHospitalDetails (placeId : string)
| VoiceToText (text : string)
| TextToSpeech (text : string)
| GetVoiceStatus
| HealthCheck
| GetProfile
| UpdateProfile (data : JsVal)
| UploadProfilePicture (file : File)
| DeleteChatHistory
| DeleteDiagnosisHistory
| SubmitFeedback (name email message : string).

Definition invoke `{Runtime} (c : GatewayCall) : Async JsVal :=
  match c with
  | Register u e p => ApiClient.register api u e p
  | Login u p => ApiClient.login api u p
  | Logout => ApiClient.logout api
  | CheckAuth => ApiClient.checkAuth api
  | ForgotPassword e => ApiClient.forgotPassword api e
  | ResetPassword t p => ApiClient.resetPassword api t p
  | VerifyResetToken t => ApiClient.verifyResetToken api t
  | Diagnose s => ApiClient.diagnose api s
  | DiagnoseImage f s => ApiClient.diagnoseImage api f s
  | GetDiagnosisHistory p n => ApiClient.getDiagnosisHistory api p n
  | SendChatMessage m => ApiClient.sendChatMessage api m
  | GetChatHistory p n => ApiClient.getChatHistory api p n
  | GeocodeCity c => ApiClient.geocodeCity api c
  | FindNearbyHospitals la lo r => ApiClient.findNearbyHospitals api la lo r
  | GetHospitalDetails i => ApiClient.getHospitalDetails api i
  | VoiceToText t => ApiClient.voiceToText api t
  | TextToSpeech t => ApiClient.textToSpeech api t
  | GetVoiceStatus => ApiClient.getVoiceStatus api
  | HealthCheck => ApiClient.healthCheck api
  | GetProfile => ApiClient.getProfile api
  | UpdateProfile d => ApiClient.updateProfile api d
  | UploadProfilePicture f => ApiClient.uploadProfilePicture api f
  | DeleteChatHistory => ApiClient.deleteChatHistory api
  | DeleteDiagnosisHistory => ApiClient.deleteDiagnosisHistory api
  | SubmitFeedback n e m => ApiClient.submitFeedback api n e m
  end.

(** The methods that go through [request], the runner's default path. *)
Definition default_path (c : GatewayCall) : bool :=
  match c with
  | CheckAuth | Diagnose _ | DiagnoseImage _ _ | GetDiagnosisHistory _ _
  | SendChatMessage _ | GetChatHistory _ _ | UploadProfilePicture _ => false
  | _ => true
  end.

(** The delay after which each method arms its abort timer. *)
Definition timeout_budget (c : GatewayCall) : Z :=
  match c with
  | CheckAuth => 5000
  | Diagnose _ => 60000
  | DiagnoseImage _ _ => 90000
  | GetDiagnosisHistory _ _ | SendChatMessage _ | GetChatHistory _ _
  | UploadProfilePicture _ => 30000
  | _ => 10000
  end.

(** The fallback of [data.error || ...] in each method. *)
Definition fallback_message (c : GatewayCall) : string :=
  match c with
  | DiagnoseImage _ _ => "Image analysis failed"
  | _ => "Request failed"
  end.

(** ** Observations on a run *)

(** The [fetch] calls that running [m] from [w] adds to the record. *)
Definition issued {A : Type} (m : Async A) (w : World) : list FetchCall :=
  drop (length (fetched w)) (fetched (m w).2).

(** The delays of the abort timers armed by the calls that [m] issues. *)
Definition budgets {A : Type} (m : Async A) (w : World) : list (option Z) :=
  map (fun k => signal (call_init k)) (issued m w).

(** The header object a call hands to [fetch] ([undefined] reads as none). *)
Definition headers_of (k : FetchCall) : gmap string string :=
  default ∅ (headers (call_init k)).

(** The payload a call carries when it is a [FormData]. *)
Definition form_of (k : FetchCall) : option FormData :=
  match body (call_init k) with
  | Some (BodyForm fd) => Some fd
  | _ => None
  end.

(** What [requestWithTimeout] hands to [fetch]. *)
Definition runner_init (options : RequestInit) (timeoutMs : Z) : RequestInit :=
  {| method := method options;
     body := body options;
     headers := Some (spread (if body_is_FormData (body options) then ∅
                              else {["Content-Type" := "application/json"]})
                             (default ∅ (headers options)));
     credentials := Some "include";
     signal := Some timeoutMs |}.

(** What [diagnoseImage] hands to [fetch]. *)
Definition diagnoseImage_init (image : File) (symptoms : option string) : RequestInit :=
  {| method := Some "POST"; credentials := Some "include";
     body := Some (BodyForm (ApiClient.diagnoseImage_formData image symptoms));
     headers := None; signal := Some 90000 |}.

(** The request of the session check. *)
Definition session_check_call `{Runtime} : FetchCall :=
  mkCall (API_BASE_URL +:+ "/api/check-auth") (runner_init no_options 5000).

(** The login request of the gateway for given credentials. *)
Definition login_call `{Runtime} (username password : JsVal) : FetchCall :=
  mkCall (API_BASE_URL +:+ "/api/login")
    {| method := Some "POST";
       body := Some (BodyText (JSON_stringify
                 (JObj [("username", username); ("password", password)])));
       headers := Some {["Content-Type" := "application/json"]};
       credentials := Some "include";
       signal := Some 10000 |}.

Definition is_login_call `{Runtime} (k : FetchCall) : bool :=
  String.eqb (call_url k) (API_BASE_URL +:+ "/api/login").

(** What the session check tells the coordinator when it does not
    confirm a session: the call throws, or its answer has no truthy
    [authenticated] member. *)
Definition not_authenticated (c : Completion JsVal) : Prop :=
  match c with
  | Throw _ => True
  | Normal response => truthy (member "authenticated" response) = false
  end.

(** A value one can read members of. *)
Definition has_members (v : JsVal) : Prop := v ≠ JNull ∧ v ≠ JUndefined.

(** The world in which [AuthProvider] mounts: nobody signed in, loading. *)
Definition mount (storage : Storage) (script : list NetOutcome) : World :=
  {| user := JNull; loading := true; localStorage := storage; network := script;
     fetched := []; console := []; toasts := [] |}.

(** ** A sample runtime

    A serializer for values whose strings need no escaping, a parser
    that is its inverse on the records below, and the development
    server as base URL: the concrete runtime of the worked examples. *)

Definition quote_mark : string := String (Ascii.ascii_of_nat 34) EmptyString.

Definition quoted (s : string) : string := quote_mark +:+ s +:+ quote_mark.

Fixpoint sample_stringify (v : JsVal) : string :=
  match v with
  | JUndefined | JNull => "null"
  | JBool true => "true"
  | JBool false => "false"
  | JNum n => pretty n
  | JStr s => quoted s
  | JArr items => "[" +:+ join_with "," (map sample_stringify items) +:+ "]"
  | JObj fields =>
      "{" +:+ join_with ","
                (map (fun kv => match kv with
                                | (k, x) => quoted k +:+ ":" +:+ sample_stringify x
                                end) fields)
          +:+ "}"
  end.

Definition credentials_record (username password : string) : JsVal :=
  JObj [("username", JStr username); ("password", JStr password)].

Definition sample_records : list JsVal :=
  [credentials_record "alice" "s3cret"; credentials_record EmptyString "s3cret";
   credentials_record "alice" EmptyString].

Definition sample_parse (text : string) : option JsVal :=
  find (fun v => String.eqb (sample_stringify v) text) sample_records.

Definition sample_runtime : Runtime :=
  {| JSON_parse := sample_parse; JSON_stringify := sample_stringify;
     Number_toString := pretty;
     API_BASE_URL := "http://localhost:5000";
     JSON_parse_empty := eq_refl;
     Number_toString_safe := fun n _ => eq_refl |}.

(** ** Worked inputs *)

Definition alice : JsVal :=
  JObj [("id", JNum 7); ("username", JStr "alice"); ("email", JStr "alice@example.org")].

Definition not_signed_in : Response :=
  mkResponse 200 (Normal (JObj [("authenticated", JBool false)])).

Definition alice_record : string := sample_stringify (credentials_record "alice" "s3cret").

Definition blank_record : string := sample_stringify (credentials_record EmptyString "s3cret").

(** A session check answered after seven seconds. *)
Definition slow_answer : World := mount ∅ [Responds 7000 not_signed_in].

(** A login refused with an empty [error] member, and one refused with
    a message. *)
Definition refused_login : World :=
  mount ∅ [Responds 120 (mkResponse 401 (Normal (JObj [("error", JStr EmptyString)])))].

Definition denied_login : World :=
  mount ∅ [Responds 120 (mkResponse 401 (Normal (JObj [("error", JStr "Invalid credentials")])))].

(** The browser of a returning user holds her record; the session
    cookie has expired, and the backend accepts the stored credentials
    ([returning_user]) or refuses them ([revoked_user]). In
    [stale_record] the stored record has lost its username. *)
Definition returning_user : World :=
  mount {[AuthContext.STORAGE_KEY := alice_record]}
    [Responds 30 not_signed_in;
     Responds 80 (mkResponse 200 (Normal (JObj [("message", JStr "Login successful");
                                                ("user", alice)])))].

Definition revoked_user : World :=
  mount {[AuthContext.STORAGE_KEY := alice_record]}
    [Responds 30 not_signed_in;
     Responds 80 (mkResponse 401 (Normal (JObj [("error", JStr "Invalid credentials")])))].

Definition stale_record : World :=
  mount {[AuthContext.STORAGE_KEY := blank_record]} [Responds 30 not_signed_in].

Definition signed_in (script : list NetOutcome) : World :=
  set_user alice (mount {[AuthContext.STORAGE_KEY := alice_record]} script).

(** More worked inputs for the gateway: a diagnosis answered in time,
    a request that fails in the network, an error page that is not JSON,
    and an image analysis that outlasts its budget. *)
Definition diagnosis_body : JsVal :=
  JObj [("result", JObj [("diseases", JArr [])]); ("credits_remaining", JNum 4)].

Definition answered_diagnosis : World :=
  mount ∅ [Responds 2500 (mkResponse 200 (Normal diagnosis_body))].

Definition offline : World :=
  mount ∅ [Fails 15 (ErrorObj "TypeError" "Failed to fetch")].

Definition gateway_down : World :=
  mount ∅ [Responds 40 (mkResponse 502 (Throw SyntaxError))].

Definition stalled_analysis : World :=
  mount ∅ [Responds 95000 (mkResponse 200 (Normal diagnosis_body))].

Definition rash : File := mkFile "rash.png" "image/png" 20480.

(** ** The earlier revision of the client

    The second text of [lib/api.ts] held by the repository: one
    [request] for every method, with a fixed delay of ten seconds, and
    an image upload that goes to [fetch] directly. *)

Module EarlierApiClient.

Record t : Type := new { baseUrl : string }.

Section Methods.
Context `{Runtime}.
Variable this : t.

Definition request (endpoint : string) (options : RequestInit) : Async JsVal :=
  let url := baseUrl this +:+ endpoint in
  let config :=
    {| method := method options;
       body := body options;
       signal := signal options;
       credentials := Some "include";
       headers := Some (spread {["Content-Type" := "application/json"]}
                               (default ∅ (headers options))) |} in
  try_catch
    ((* controller = new AbortController();
        timeoutId = setTimeout(() => controller.abort(), 10000) *)
     response ← fetch url {| method := method config; body := body config;
                             headers := headers config;
                             credentials := credentials config;
                             signal := Some 10000 |};
     (* clearTimeout(timeoutId) *)
     data ← Response_json response;
     if negb (ok response) then
       error ← get_prop data "error";
       throw (new_Error (ToString (js_or error (JStr "Request failed"))))
     else mret data)
    (fun error =>
       if instanceof_Error error then
         if String.eqb (error_name error) "AbortError" then
           throw (new_Error "Request timeout - please try again")
         else throw error
       else throw (new_Error "Network error occurred")).

Definition register (username email password : string) : Async JsVal :=
  request "/api/register"
    (ApiClient.json_request "POST"
       (JObj [("username", JStr username); ("email", JStr email);
              ("password", JStr password)])).

Definition login (username password : JsVal) : Async JsVal :=
  request "/api/login"
    (ApiClient.json_request "POST" (JObj [("username", username); ("password", password)])).

Definition logout : Async JsVal :=
  request "/api/logout" (ApiClient.bare_request "POST").

Definition checkAuth : Async JsVal := request "/api/check-auth" no_options.

Definition diagnose (symptoms : string) : Async JsVal :=
  request "/api/diagnose"
    (ApiClient.json_request "POST" (JObj [("symptoms", JStr symptoms)])).

(** [fetch(...).then(res => res.json())]: no signal, no look at the status. *)
Definition diagnoseImage (image : File) (symptoms : option string) : Async JsVal :=
  let formData := ApiClient.diagnoseImage_formData image symptoms in
  response ← fetch (baseUrl this +:+ "/api/diagnose-image")
               {| method := Some "POST"; credentials := Some "include";
                  body := Some (BodyForm formData); headers := None; signal := None |};
  Response_json response.

Definition getDiagnosisHistory (page perPage : option Z) : Async JsVal :=
  request
    ("/api/diagnosis-history?page=" +:+ Number_toString (default 1 page)
       +:+ "&per_page=" +:+ Number_toString (default 10 perPage))
    no_options.

Definition sendChatMessage (message : string) : Async JsVal :=
  request "/api/chat" (ApiClient.json_request "POST" (JObj [("message", JStr message)])).

Definition getChatHistory (page perPage : option Z) : Async JsVal :=
  request
    ("/api/chat-history?page=" +:+ Number_toString (default 1 page)
       +:+ "&per_page=" +:+ Number_toString (default 20 perPage))
    no_options.

Definition geocodeCity (city : string) : Async JsVal :=
  request "/api/geocode-city" (ApiClient.json_request "POST" (JObj [("city", JStr city)])).

Definition findNearbyHospitals (latitude longitude : Z) (radius : option Z) : Async JsVal :=
  request "/api/nearby-hospitals"
    (ApiClient.json_request "POST"
       (JObj [("latitude", JNum latitude); ("longitude", JNum longitude);
              ("radius", JNum (default 5000 radius))])).

Definition getHospitalDetails (placeId : string) : Async JsVal :=
  request ("/api/hospital-details/" +:+ placeId) no_options.

Definition voiceToText (text : string) : Async JsVal :=
  request "/api/voice-to-text" (ApiClient.json_request "POST" (JObj [("text", JStr text)])).

Definition textToSpeech (text : string) : Async JsVal :=
  request "/api/text-to-speech" (ApiClient.json_request "POST" (JObj [("text", JStr text)])).

Definition getVoiceStatus : Async JsVal := request "/api/voice/status" no_options.

Definition healthCheck : Async JsVal := request "/api/health" no_options.

End Methods.
End EarlierApiClient.

(** ** The earlier revision of the coordinator

    [contexts/AuthContext.tsx] as the repository holds it under its own
    name: the same provider without stored credentials. It calls the
    client through the same import, [api]. *)

Module EarlierAuthContext.
Section Provider.
Context `{Runtime}.

Definition checkAuth : Async unit :=
  try_finally
    (try_catch
       (response ← ApiClient.checkAuth api;
        authenticated ← get_prop response "authenticated";
        if truthy authenticated then
          u ← get_prop response "user";
          setUser u
        else setUser JNull)
       (fun error => setUser JNull))
    (setLoading false).

Definition login (username password : string) : Async unit :=
  try_catch
    (response ← ApiClient.login api (JStr username) (JStr password);
     u ← get_prop response "user";
     setUser u;;
     toast (ToastSuccess "Welcome back!"))
    (fun error =>
       toast (ToastError (AuthContext.message_or error "Login failed"));;
       throw error).

Definition register (username email password : string) : Async unit :=
  try_catch
    (response ← ApiClient.register api username email password;
     u ← get_prop response "user";
     setUser u;;
     toast (ToastSuccess "Account created successfully!"))
    (fun error =>
       toast (ToastError (AuthContext.message_or error "Registration failed"));;
       throw error).

Definition logout : Async unit :=
  try_catch
    (ApiClient.logout api;;
     setUser JNull;;
     toast (ToastSuccess "Logged out successfully"))
    (fun error => toast (ToastError "Logout failed")).

End Provider.
End EarlierAuthContext.

(** A stalled upload for the earlier client, answered after two minutes
    with an error status. *)
Definition late_refusal : World :=
  mount ∅ [Responds 120000 (mkResponse 500 (Normal (JObj [("error", JStr "Internal error")])))].

(** ** Pages: the handlers of the React components

    A handler runs over the state of its component, the routes it has
    navigated to and the world. It reads the component state of the
    render it was created in (its argument) and writes through the
    setters. The strings of form fields stand for JavaScript strings
    code unit by code unit (text whose code units are below 256), so
    that [length], the character classes of the regular expressions,
    [trim] and [includes] are those of the source. *)

Record PageState (S : Type) : Type := mkPage {
  state : S;
  visited : list string;
  world : World
}.
Arguments mkPage {S} state visited world.
Arguments state {S} p.
Arguments visited {S} p.
Arguments world {S} p.

Definition Page (S A : Type) : Type := PageState S -> Completion A * PageState S.

#[export] Instance Page_ret (S : Type) : MRet (Page S) := fun A a ps => (Normal a, ps).

#[export] Instance Page_bind (S : Type) : MBind (Page S) := fun A B k m ps =>
  match m ps with
  | (Normal a, ps') => k a ps'
  | (Throw e, ps') => (Throw e, ps')
  end.

Definition page_try_catch {S A : Type} (body : Page S A) (handler : Thrown -> Page S A)
  : Page S A :=
  fun ps =>
    match body ps with
    | (Normal a, ps') => (Normal a, ps')
    | (Throw e, ps') => handler e ps'
    end.

Definition page_try_finally {S A : Type} (body : Page S A) (cleanup : Page S unit)
  : Page S A :=
  fun ps =>
    let (c, ps') := body ps in
    match cleanup ps' with
    | (Normal _, ps'') => (c, ps'')
    | (Throw e, ps'') => (Throw e, ps'')
    end.

(** An effect on the world (a gateway call, a coordinator operation, a
    toast) made from a handler. *)
Definition in_world {S A : Type} (m : Async A) : Page S A := fun ps =>
  let (c, w') := m (world ps) in
  (c, mkPage (state ps) (visited ps) w').

(** A [useState] setter. *)
Definition set_state {S : Type} (f : S -> S) : Page S unit := fun ps =>
  (Normal tt, mkPage (f (state ps)) (visited ps) (world ps)).

(** [navigate(path)] of the router. *)
Definition navigate {S : Type} (path : string) : Page S unit := fun ps =>
  (Normal tt, mkPage (state ps) (visited ps ++ [path]) (world ps)).

(** The [fetch] calls a handler adds to the record. *)
Definition page_issued {S A : Type} (h : Page S A) (ps : PageState S) : list FetchCall :=
  drop (length (fetched (world ps))) (fetched (world (h ps).2)).

(** *** String operations of the handlers *)

Definition code (a : Ascii.ascii) : nat := Ascii.nat_of_ascii a.

Definition between (lo hi : nat) (a : Ascii.ascii) : bool :=
  (lo <=? code a)%nat && (code a <=? hi)%nat.

Fixpoint some_char (p : Ascii.ascii -> bool) (s : string) : bool :=
  match s with
  | EmptyString => false
  | String a rest => p a || some_char p rest
  end.

Fixpoint every_char (p : Ascii.ascii -> bool) (s : string) : bool :=
  match s with
  | EmptyString => true
  | String a rest => p a && every_char p rest
  end.

(** [/[A-Z]/], [/[a-z]/] and [/\d/] *)
Definition is_upper : Ascii.ascii -> bool := between 65 90.
Definition is_lower : Ascii.ascii -> bool := between 97 122.
Definition is_digit : Ascii.ascii -> bool := between 48 57.

(** The class of special characters of the password checks: the
    twenty punctuation marks below, the double quote among them. *)
Definition special_characters : string := "!@#$%^&*(),.?" +:+ quote_mark +:+ ":{}|<>".

Definition is_special (a : Ascii.ascii) : bool :=
  some_char (fun b => Ascii.eqb a b) special_characters.

(** [/^[a-zA-Z0-9_]+$/.test(s)] *)
Definition is_word_char (a : Ascii.ascii) : bool :=
  is_lower a || is_upper a || is_digit a || (code a =? 95)%nat.

Definition only_word_chars (s : string) : bool :=
  negb (String.eqb s EmptyString) && every_char is_word_char s.

(** White space and line terminators among the code units below 256:
    what [trim] strips. *)
Definition is_white (a : Ascii.ascii) : bool :=
  between 9 13 a || (code a =? 32)%nat || (code a =? 160)%nat.

(** [!s.trim()]: nothing is left of [s] once trimmed. *)
Definition blank (s : string) : bool := every_char is_white s.

(** [hay.includes(needle)] *)
Fixpoint includes (hay needle : string) : bool :=
  String.prefix needle hay
  || match hay with
     | EmptyString => false
     | String _ rest => includes rest needle
     end.

(** [!s] on a string that may be [null] *)
Definition absent (s : option string) : bool :=
  match s with
  | Some text => negb (truthy (JStr text))
  | None => true
  end.

(** The five checks of the password fields, as the effect on the
    password computes them. *)
Record PasswordStrength : Type := mkStrength {
  strength_length : bool;
  strength_uppercase : bool;
  strength_lowercase : bool;
  strength_digit : bool;
  strength_special : bool
}.

Definition strength_of (password : string) : PasswordStrength :=
  {| strength_length := (8 <=? String.length password)%nat;
     strength_uppercase := some_char is_upper password;
     strength_lowercase := some_char is_lower password;
     strength_digit := some_char is_digit password;
     strength_special := some_char is_special password |}.

(** [Object.values(passwordStrength).every(Boolean)] *)
Definition every_check (p : PasswordStrength) : bool :=
  strength_length p && strength_uppercase p && strength_lowercase p
  && strength_digit p && strength_special p.

(** *** The navigation bar (the [Navbar] component) *)

Module Navbar.

Record State : Type := mkState { isSheetOpen : bool; showBuyCredits : bool }.

Definition setIsSheetOpen (b : bool) : Page State unit :=
  set_state (fun s => {| isSheetOpen := b; showBuyCredits := showBuyCredits s |}).

Definition setShowBuyCredits (b : bool) : Page State unit :=
  set_state (fun s => {| isSheetOpen := isSheetOpen s; showBuyCredits := b |}).

Section Handlers.
Context `{Runtime}.

Definition handleLogout : Page State unit :=
  in_world AuthContext.logout;;
  navigate "/";;
  setIsSheetOpen false.

Definition handleNavigation (path : string) : Page State unit :=
  navigate path;;
  setIsSheetOpen false.

Definition handleBuyCredits : Page State unit :=
  setShowBuyCredits true;;
  setIsSheetOpen false.

Definition handleCreditsSuccess : Page State unit :=
  in_world AuthContext.checkAuth.

End Handlers.
End Navbar.

(** *** The sign-in page (the [Auth] component) *)

Module Auth.

Record LoginData : Type := mkLoginData { login_username : string; login_password : string }.

Record RegisterData : Type := mkRegisterData {
  username : string;
  email : string;
  password : string;
  confirmPassword : string
}.

Record State : Type := mkState {
  loading : bool;
  loginData : LoginData;
  registerData : RegisterData;
  showPassword : bool;
  showConfirmPassword : bool;
  passwordStrength : PasswordStrength
}.

Definition setLoading (b : bool) : Page State unit :=
  set_state (fun s =>
    {| loading := b; loginData := loginData s; registerData := registerData s;
       showPassword := showPassword s; showConfirmPassword := showConfirmPassword s;
       passwordStrength := passwordStrength s |}).

Definition setPasswordStrength (p : PasswordStrength) : Page State unit :=
  set_state (fun s =>
    {| loading := loading s; loginData := loginData s; registerData := registerData s;
       showPassword := showPassword s; showConfirmPassword := showConfirmPassword s;
       passwordStrength := p |}).

Section Handlers.
Context `{Runtime}.

(** The effect on [registerData.password]. *)
Definition strength_effect (s : State) : Page State unit :=
  setPasswordStrength (strength_of (password (registerData s))).

Definition handleLogin (s : State) : Page State unit :=
  setLoading true;;
  page_try_finally
    (page_try_catch
       (in_world (AuthContext.login (login_username (loginData s))
                                    (login_password (loginData s)) None);;
        navigate "/dashboard")
       (fun error => mret tt))
    (setLoading false).

Definition handleRegister (s : State) : Page State unit :=
  let data := registerData s in
  if (String.length (username data) <? 3)%nat || (20 <? String.length (username data))%nat
  then in_world (toast (ToastError "Username must be between 3 and 20 characters"))
  else if negb (only_word_chars (username data))
  then in_world (toast (ToastError
         "Username can only contain letters, numbers, and underscores"))
  else
    let isStrong := every_check (passwordStrength s) in
    if negb isStrong
    then in_world (toast (ToastError "Password does not meet security requirements"))
    else if negb (String.eqb (password data) (confirmPassword data))
    then in_world (toast (ToastError "Passwords do not match"))
    else
      setLoading true;;
      page_try_finally
        (page_try_catch
           (in_world (AuthContext.register (username data) (email data) (password data));;
            navigate "/dashboard")
           (fun error => mret tt))
        (setLoading false).

End Handlers.
End Auth.

(** *** The password reset page (the [ResetPassword] component) *)

Module ResetPassword.

Record State : Type := mkState {
  password : string;
  confirmPassword : string;
  loading : bool;
  verifying : bool;
  tokenValid : JsVal;
  showPassword : bool;
  showConfirmPassword : bool;
  passwordStrength : PasswordStrength
}.

Definition setLoading (b : bool) : Page State unit :=
  set_state (fun s =>
    {| password := password s; confirmPassword := confirmPassword s; loading := b;
       verifying := verifying s; tokenValid := tokenValid s;
       showPassword := showPassword s; showConfirmPassword := showConfirmPassword s;
       passwordStrength := passwordStrength s |}).

Definition setVerifying (b : bool) : Page State unit :=
  set_state (fun s =>
    {| password := password s; confirmPassword := confirmPassword s;
       loading := loading s; verifying := b; tokenValid := tokenValid s;
       showPassword := showPassword s; showConfirmPassword := showConfirmPassword s;
       passwordStrength := passwordStrength s |}).

Definition setTokenValid (v : JsVal) : Page State unit :=
  set_state (fun s =>
    {| password := password s; confirmPassword := confirmPassword s;
       loading := loading s; verifying := verifying s; tokenValid := v;
       showPassword := showPassword s; showConfirmPassword := showConfirmPassword s;
       passwordStrength := passwordStrength s |}).

Definition setPasswordStrength (p : PasswordStrength) : Page State unit :=
  set_state (fun s =>
    {| password := password s; confirmPassword := confirmPassword s;
       loading := loading s; verifying := verifying s; tokenValid := tokenValid s;
       showPassword := showPassword s; showConfirmPassword := showConfirmPassword s;
       passwordStrength := p |}).

Section Handlers.
Context `{Runtime}.
(** [searchParams.get('token')]: a string, or [null]. *)
Variable token : option string.

Definition verifyToken : Page State unit :=
  match token with
  | Some text =>
      if negb (truthy (JStr text)) then
        setTokenValid (JBool false);;
        setVerifying false
      else
        page_try_finally
          (page_try_catch
             (result ← in_world (ApiClient.verifyResetToken api text);
              valid ← in_world (get_prop result "valid");
              setTokenValid valid)
             (fun error => setTokenValid (JBool false)))
          (setVerifying false)
  | None =>
      setTokenValid (JBool false);;
      setVerifying false
  end.

(** The effect on [password]. *)
Definition strength_effect (s : State) : Page State unit :=
  setPasswordStrength (strength_of (password s)).

Definition handleSubmit (s : State) : Page State unit :=
  if negb (String.eqb (password s) (confirmPassword s))
  then in_world (toast (ToastError "Passwords do not match"))
  else
    let isStrong := every_check (passwordStrength s) in
    if negb isStrong
    then in_world (toast (ToastError "Password does not meet strength requirements"))
    else
      match token with
      | Some text =>
          if negb (truthy (JStr text))
          then in_world (toast (ToastError "Invalid reset token"))
          else
            setLoading true;;
            page_try_finally
              (page_try_catch
                 (in_world (ApiClient.resetPassword api text (password s));;
                  in_world (toast (ToastSuccess "Password reset successful!"));;
                  navigate "/auth")
                 (fun error =>
                    in_world (toast (ToastError
                      (AuthContext.message_or error "Failed to reset password")))))
              (setLoading false)
      | None => in_world (toast (ToastError "Invalid reset token"))
      end.

End Handlers.
End ResetPassword.

(** *** The feedback form ([FeedbackForm] of the home page) *)

Module FeedbackForm.

Record State : Type := mkState {
  name : string;
  email : string;
  message : string;
  isSubmitting : bool
}.

Definition setName (v : string) : Page State unit :=
  set_state (fun s =>
    {| name := v; email := email s; message := message s; isSubmitting := isSubmitting s |}).

Definition setEmail (v : string) : Page State unit :=
  set_state (fun s =>
    {| name := name s; email := v; message := message s; isSubmitting := isSubmitting s |}).

Definition setMessage (v : string) : Page State unit :=
  set_state (fun s =>
    {| name := name s; email := email s; message := v; isSubmitting := isSubmitting s |}).

Definition setIsSubmitting (b : bool) : Page State unit :=
  set_state (fun s =>
    {| name := name s; email := email s; message := message s; isSubmitting := b |}).

Section Handlers.
Context `{Runtime}.

Definition handleSubmit (s : State) : Page State unit :=
  if negb (truthy (JStr (name s))) || negb (truthy (JStr (email s)))
     || negb (truthy (JStr (message s)))
  then in_world (toast (ToastError "Please fill in all fields"))
  else
    setIsSubmitting true;;
    page_try_finally
      (page_try_catch
         (in_world (ApiClient.submitFeedback api (name s) (email s) (message s));;
          in_world (toast (ToastSuccess
            "Thank you for your feedback! We'll be in touch soon."));;
          setName EmptyString;;
          setEmail EmptyString;;
          setMessage EmptyString)
         (fun error =>
            in_world (toast (ToastError
              (AuthContext.message_or error
                 "Failed to send feedback. Please try again later.")))))
      (setIsSubmitting false).

End Handlers.
End FeedbackForm.

(** *** The profile page (the [Profile] component with its edit form) *)

Module Profile.

Record ProfileData : Type := mkProfileData { username : string; email : string }.

Record State : Type := mkState {
  editMode : bool;
  loading : bool;
  uploading : bool;
  removingPicture : bool;
  profileData : ProfileData;
  profilePicture : JsVal;
  preview : option string
}.

Definition setEditMode (b : bool) : Page State unit :=
  set_state (fun s =>
    {| editMode := b; loading := loading s; uploading := uploading s;
       removingPicture := removingPicture s; profileData := profileData s;
       profilePicture := profilePicture s; preview := preview s |}).

Definition setLoading (b : bool) : Page State unit :=
  set_state (fun s =>
    {| editMode := editMode s; loading := b; uploading := uploading s;
       removingPicture := removingPicture s; profileData := profileData s;
       profilePicture := profilePicture s; preview := preview s |}).

Definition setUploading (b : bool) : Page State unit :=
  set_state (fun s =>
    {| editMode := editMode s; loading := loading s; uploading := b;
       removingPicture := removingPicture s; profileData := profileData s;
       profilePicture := profilePicture s; preview := preview s |}).

Definition setProfilePicture (v : JsVal) : Page State unit :=
  set_state (fun s =>
    {| editMode := editMode s; loading := loading s; uploading := uploading s;
       removingPicture := removingPicture s; profileData := profileData s;
       profilePicture := v; preview := preview s |}).

Definition setPreview (v : option string) : Page State unit :=
  set_state (fun s =>
    {| editMode := editMode s; loading := loading s; uploading := uploading s;
       removingPicture := removingPicture s; profileData := profileData s;
       profilePicture := profilePicture s; preview := v |}).

Section Handlers.
Context `{Runtime}.

(** [file] is [fileInputRef.current?.files?.[0]]. *)
Definition handleUpload (file : option File) : Page State unit :=
  match file with
  | None => in_world (toast (ToastError "Please select an image"))
  | Some picture =>
      setUploading true;;
      page_try_finally
        (page_try_catch
           (result ← in_world (ApiClient.uploadProfilePicture api picture);
            url ← in_world (get_prop result "image_url");
            setProfilePicture url;;
            setPreview None;;
            in_world AuthContext.checkAuth;;
            in_world (toast (ToastSuccess "Profile picture uploaded successfully!")))
           (fun error =>
              in_world (toast (ToastError
                (AuthContext.message_or error "Failed to upload picture")))))
        (setUploading false)
  end.

Definition handleUpdate (s : State) : Page State unit :=
  setLoading true;;
  page_try_finally
    (page_try_catch
       (in_world (ApiClient.updateProfile api
                    (JObj [("username", JStr (username (profileData s)));
                           ("email", JStr (email (profileData s)))]));;
        in_world AuthContext.checkAuth;;
        in_world (toast (ToastSuccess "Profile updated successfully!"));;
        setEditMode false)
       (fun error =>
          in_world (toast (ToastError
            (AuthContext.message_or error "Failed to update profile")))))
    (setLoading false).

End Handlers.
End Profile.

(** *** The diagnosis page (the [Diagnose] component) *)

Module Diagnose.

Record State : Type := mkState {
  symptoms : string;
  loading : bool;
  result : JsVal;
  selectedImages : list File;
  imagePreviews : list string;
  isListening : bool;
  showBuyCredits : bool
}.

Definition setLoading (b : bool) : Page State unit :=
  set_state (fun s =>
    {| symptoms := symptoms s; loading := b; result := result s;
       selectedImages := selectedImages s; imagePreviews := imagePreviews s;
       isListening := isListening s; showBuyCredits := showBuyCredits s |}).

Definition setResult (v : JsVal) : Page State unit :=
  set_state (fun s =>
    {| symptoms := symptoms s; loading := loading s; result := v;
       selectedImages := selectedImages s; imagePreviews := imagePreviews s;
       isListening := isListening s; showBuyCredits := showBuyCredits s |}).

Definition setShowBuyCredits (b : bool) : Page State unit :=
  set_state (fun s =>
    {| symptoms := symptoms s; loading := loading s; result := result s;
       selectedImages := selectedImages s; imagePreviews := imagePreviews s;
       isListening := isListening s; showBuyCredits := b |}).

(** [v !== undefined] *)
Definition defined (v : JsVal) : bool :=
  match v with JUndefined => false | _ => true end.

Section Handlers.
Context `{Runtime}.
(** [updateCredits] comes from [useAuth()]; the provider of the
    repository does not define it, so it is a parameter here. *)
Variable updateCredits : JsVal -> Async unit.

Definition handleTextDiagnosis (s : State) : Page State unit :=
  if blank (symptoms s)
  then in_world (toast (ToastError "Please enter your symptoms"))
  else
    setLoading true;;
    setResult JNull;;
    page_try_finally
      (page_try_catch
         (response ← in_world (ApiClient.diagnose api (symptoms s));
          r ← in_world (get_prop response "result");
          setResult r;;
          in_world (toast (ToastSuccess "Analysis complete!"));;
          credits ← in_world (get_prop response "credits_remaining");
          if defined credits then in_world (updateCredits credits) else mret tt)
         (fun error =>
            let errorMessage := AuthContext.message_or error "Diagnosis failed" in
            if includes errorMessage "Insufficient credits"
               || includes errorMessage "insufficient_credits"
            then
              in_world (toast (ToastError
                "Insufficient credits! Please purchase more credits to continue."));;
              setShowBuyCredits true
            else if includes errorMessage "timeout"
            then in_world (toast (ToastError
                   "Analysis is taking longer than expected. Please try again with shorter symptoms or check your connection."))
            else if includes errorMessage "network"
            then in_world (toast (ToastError
                   "Network error. Please check your internet connection and try again."))
            else in_world (toast (ToastError ("Diagnosis failed: " +:+ errorMessage)))))
      (setLoading false).

Definition handleImageDiagnosis (s : State) : Page State unit :=
  match selectedImages s with
  | [] => in_world (toast (ToastError "Please select at least one image"))
  | first :: _ =>
      setLoading true;;
      setResult JNull;;
      page_try_finally
        (page_try_catch
           (response ← in_world (ApiClient.diagnoseImage api first (Some (symptoms s)));
            r ← in_world (get_prop response "result");
            setResult r;;
            in_world (toast (ToastSuccess
              ("Image analysis complete! (" +:+ pretty (length (selectedImages s))
                 +:+ " image"
                 +:+ (if (1 <? length (selectedImages s))%nat then "s" else EmptyString)
                 +:+ " uploaded)")));;
            credits ← in_world (get_prop response "credits_remaining");
            if defined credits then in_world (updateCredits credits) else mret tt)
           (fun error =>
              let errorMessage := AuthContext.message_or error "Image analysis failed" in
              if includes errorMessage "Insufficient credits"
                 || includes errorMessage "insufficient_credits"
              then
                in_world (toast (ToastError
                  "Insufficient credits! Please purchase more credits to continue."));;
                setShowBuyCredits true
              else if includes errorMessage "timeout"
              then in_world (toast (ToastError
                     "Image analysis is taking longer than expected. Please try again with a smaller image or check your connection."))
              else if includes errorMessage "network"
              then in_world (toast (ToastError
                     "Network error. Please check your internet connection and try again."))
              else in_world (toast (ToastError
                     ("Image analysis failed: " +:+ errorMessage)))))
        (setLoading false)
  end.

Definition handleCreditsSuccess : Page State unit :=
  in_world AuthContext.checkAuth;;
  in_world (toast (ToastSuccess "Credits added! You can continue with diagnosis.")).

End Handlers.
End Diagnose.

(** Worked inputs for the coordinator and the pages. *)
Definition welcome : Response :=
  mkResponse 200 (Normal (JObj [("message", JStr "Login successful"); ("user", alice)])).

Definition accepting : World := mount ∅ [Responds 80 welcome].

Definition live_session : World :=
  mount {[AuthContext.STORAGE_KEY := alice_record]}
    [Responds 30 (mkResponse 200 (Normal (JObj [("authenticated", JBool true);
                                                ("user", alice)])))].

Definition first_visit : World := mount ∅ [Responds 30 not_signed_in].

Definition garbled_record : World := mount {[AuthContext.STORAGE_KEY := "not json"]} [].

Definition emptied_record : World := mount {[AuthContext.STORAGE_KEY := EmptyString]} [].

Definition leaving : World :=
  signed_in [Responds 50 (mkResponse 200 (Normal (JObj [("message", JStr "bye")])));
             Responds 30 not_signed_in].

Definition no_credits : World :=
  mount ∅ [Responds 200 (mkResponse 402 (Normal (JObj
             [("error", JStr "Insufficient credits. Please purchase more.")])))].

Definition sign_up_form : Auth.State :=
  {| Auth.loading := false;
     Auth.loginData := Auth.mkLoginData EmptyString EmptyString;
     Auth.registerData := Auth.mkRegisterData "alice_01" "alice@example.org"
                                              "S3cret!pw" "S3cret!pw";
     Auth.showPassword := false; Auth.showConfirmPassword := false;
     Auth.passwordStrength := strength_of "S3cret!pw" |}.

Definition new_password_form : ResetPassword.State :=
  {| ResetPassword.password := "S3cret!pw"; ResetPassword.confirmPassword := "S3cret!pw";
     ResetPassword.loading := false; ResetPassword.verifying := false;
     ResetPassword.tokenValid := JBool true;
     ResetPassword.showPassword := false; ResetPassword.showConfirmPassword := false;
     ResetPassword.passwordStrength := strength_of "S3cret!pw" |}.

Definition symptoms_form : Diagnose.State :=
  {| Diagnose.symptoms := "fever and sore throat"; Diagnose.loading := false;
     Diagnose.result := JNull; Diagnose.selectedImages := [];
     Diagnose.imagePreviews := []; Diagnose.isListening := false;
     Diagnose.showBuyCredits := false |}.

Definition on_page {S : Type} (s : S) (w : World) : PageState S := mkPage s [] w.

(** The message of the error with which each method rejects when its
    abort timer fired: the runner's, except for [diagnoseImage], whose
    own [catch] has its own. *)
Definition timeout_message (c : GatewayCall) : string :=
  match c with
  | DiagnoseImage _ _ => "Image analysis timeout - please try again"
  | _ => "The request is taking longer than expected. Please try again."
  end.

(** ** Browsers that refuse the storage

    With site data blocked the browser throws a [SecurityError] at
    every access to [localStorage]; with the quota exhausted it throws
    a [QuotaExceededError] at [setItem]. Both are [DOMException]s, which
    are instances of [Error]. *)
Definition SecurityError : Thrown :=
  ErrorObj "SecurityError" "The operation is insecure.".

Definition QuotaExceededError : Thrown :=
  ErrorObj "QuotaExceededError" "The quota has been exceeded.".

(** A first visit from a browser that blocks site data. *)
Definition blocked_visit : World := mount (Denied SecurityError) [Responds 30 not_signed_in].

(** A login that the backend accepts, from a browser whose storage is full. *)
Definition full_storage : World := mount (Available (Some QuotaExceededError) ∅) [Responds 80 welcome].

(** A profile update that the backend accepts, followed by a session
    check, from a browser that blocks site data. *)
Definition blocked_profile : World :=
  set_user alice
    (mount (Denied SecurityError)
       [Responds 60 (mkResponse 200 (Normal (JObj [("message", JStr "Profile updated")])));
        Responds 30 not_signed_in]).


(** The profile page in edit mode, with a new email typed in. *)
Definition editing_profile : Profile.State :=
  {| Profile.editMode := true; Profile.loading := false; Profile.uploading := false;
     Profile.removingPicture := false;
     Profile.profileData := Profile.mkProfileData "alice" "alice@example.com";
     Profile.profilePicture := JNull; Profile.preview := None |}.

(** A signed-in user who leaves from a browser that blocks site data. *)
Definition blocked_leaving : World :=
  set_user alice
    (mount (Denied SecurityError)
       [Responds 50 (mkResponse 200 (Normal (JObj [("message", JStr "bye")])))]).


(** * Properties *)

(** ** The runner and the gateway touch the network only *)

Lemma record_fetch_frame k w :
  user (record_fetch k w) = user w
  ∧ loading (record_fetch k w) = loading w
  ∧ localStorage (record_fetch k w) = localStorage w
  ∧ console (record_fetch k w) = console w
  ∧ toasts (record_fetch k w) = toasts w.
Proof. by rw /record_fetch. Qed.

Lemma issued_record_fetch {A : Type} (m : Async A) k w :
  (m w).2 = record_fetch k w → issued m w = [k].
Proof.
  intros E. rw /issued E /=.
  by rw drop_app_length.
Qed.

Lemma get_prop_pure v p w : (get_prop v p w).2 = w.
Proof. by destruct v. Qed.

Section Gateway.
Context `{Runtime}.

Lemma requestWithTimeout_world this endpoint options timeoutMs w :
  (ApiClient.requestWithTimeout this endpoint options timeoutMs w).2
  = record_fetch (mkCall (ApiClient.baseUrl this +:+ endpoint)
                         (runner_init options timeoutMs)) w.
Proof.
  rw /ApiClient.requestWithTimeout /try_catch /mbind /Async_bind /fetch /=.
  fold (runner_init options timeoutMs).
  destruct (settle _ _) as [r|e]; simpl.
  - rw /Response_json. destruct (json r) as [data|e]; simpl.
    + destruct (negb (ok r)); simpl; [|done].
      destruct data; simpl; try done.
    + by destruct e as [name ?|?]; simpl; [destruct (String.eqb name _)|].
  - by destruct e as [name ?|?]; simpl; [destruct (String.eqb name _)|].
Qed.

Lemma diagnoseImage_world this image symptoms w :
  (ApiClient.diagnoseImage this image symptoms w).2
  = record_fetch (mkCall (ApiClient.baseUrl this +:+ "/api/diagnose-image")
                         (diagnoseImage_init image symptoms)) w.
Proof.
  rw /ApiClient.diagnoseImage /try_catch /mbind /Async_bind /fetch /=.
  fold (diagnoseImage_init image symptoms).
  destruct (settle _ _) as [r|e]; simpl.
  - rw /Response_json. destruct (json r) as [data|e]; simpl.
    + destruct (negb (ok r)); simpl; [|done].
      destruct data; simpl; try done.
    + by destruct e as [name ?|?]; simpl; [destruct (String.eqb name _)|].
  - by destruct e as [name ?|?]; simpl; [destruct (String.eqb name _)|].
Qed.

(** Every method of the gateway makes one [fetch] call and leaves the
    rest of the world as it was. *)
Lemma invoke_world c w : ∃ k, (invoke c w).2 = record_fetch k w.
Proof.
  destruct c; simpl;
    try (eexists; apply diagnoseImage_world);
    eexists; apply requestWithTimeout_world.
Qed.

Lemma invoke_frame c w :
  user (invoke c w).2 = user w
  ∧ loading (invoke c w).2 = loading w
  ∧ localStorage (invoke c w).2 = localStorage w
  ∧ console (invoke c w).2 = console w
  ∧ toasts (invoke c w).2 = toasts w.
Proof. destruct (invoke_world c w) as [k ->]. apply record_fetch_frame. Qed.

End Gateway.

(** ** Completions of the runner *)

Section Runner.
Context `{Runtime}.

(** An aborted request is reported as the runner's timeout error. *)
Lemma requestWithTimeout_aborted this endpoint options timeoutMs w :
  timeoutMs <= latency_of (next_outcome w) →
  (ApiClient.requestWithTimeout this endpoint options timeoutMs w).1
  = Throw (new_Error "The request is taking longer than expected. Please try again.").
Proof.
  intros Hlate.
  rw /ApiClient.requestWithTimeout /try_catch /mbind /Async_bind /fetch /settle
     /timer_fires_first /=.
  by rw (proj2 (Z.leb_le _ _) Hlate).
Qed.

Lemma diagnoseImage_aborted this image symptoms w :
  90000 <= latency_of (next_outcome w) →
  (ApiClient.diagnoseImage this image symptoms w).1
  = Throw (new_Error "Image analysis timeout - please try again").
Proof.
  intros Hlate.
  rw /ApiClient.diagnoseImage /try_catch /mbind /Async_bind /fetch /settle
     /timer_fires_first /=.
  by rw (proj2 (Z.leb_le _ _) Hlate).
Qed.

(** A response that arrives in time settles the [fetch]. *)
Lemma settle_in_time init ms t r :
  signal init = Some ms → t < ms → settle init (Responds t r) = Normal r.
Proof.
  intros Hs Ht. rw /settle /timer_fires_first Hs /=.
  by rw (proj2 (Z.leb_gt _ _) Ht).
Qed.

Ltac run_fetch Hnext Hs :=
  rw /try_catch /mbind /Async_bind /fetch Hnext;
  erewrite settle_in_time; [|reflexivity|exact Hs];
  rw /= /Response_json.

Ltac rethrown e :=
  destruct e as [name ?|?]; simpl; [destruct (String.eqb name _)|]; eauto.


(** A response outside the 2xx range never resolves the call ... *)
Lemma requestWithTimeout_refused this endpoint options timeoutMs w t r :
  next_outcome w = Responds t r → t < timeoutMs → ok r = false →
  ∃ e, (ApiClient.requestWithTimeout this endpoint options timeoutMs w).1 = Throw e.
Proof.
  intros Hnext Ht Hok. rw /ApiClient.requestWithTimeout. run_fetch Hnext Ht.
  destruct (json r) as [data|e]; simpl.
  - rw Hok /=. destruct data; simpl; eauto.
  - rethrown e.
Qed.

(** ... and when the body is a JSON object, the error carries its
    [error] member, or the fallback when that member is falsy. *)
Lemma requestWithTimeout_refused_object this endpoint options timeoutMs w t r fields :
  next_outcome w = Responds t r → t < timeoutMs → ok r = false →
  json r = Normal (JObj fields) →
  (ApiClient.requestWithTimeout this endpoint options timeoutMs w).1
  = Throw (new_Error (ToString (js_or (assoc "error" fields) (JStr "Request failed")))).
Proof.
  intros Hnext Ht Hok Hjson. rw /ApiClient.requestWithTimeout. run_fetch Hnext Ht.
  by rw Hjson /= Hok.
Qed.

Lemma diagnoseImage_refused this image symptoms w t r :
  next_outcome w = Responds t r → t < 90000 → ok r = false →
  ∃ e, (ApiClient.diagnoseImage this image symptoms w).1 = Throw e.
Proof.
  intros Hnext Ht Hok. rw /ApiClient.diagnoseImage. run_fetch Hnext Ht.
  destruct (json r) as [data|e]; simpl.
  - rw Hok /=. destruct data; simpl; eauto.
  - rethrown e.
Qed.

Lemma diagnoseImage_refused_object this image symptoms w t r fields :
  next_outcome w = Responds t r → t < 90000 → ok r = false →
  json r = Normal (JObj fields) →
  (ApiClient.diagnoseImage this image symptoms w).1
  = Throw (new_Error (ToString (js_or (assoc "error" fields) (JStr "Image analysis failed")))).
Proof.
  intros Hnext Ht Hok Hjson. rw /ApiClient.diagnoseImage. run_fetch Hnext Ht.
  by rw Hjson /= Hok.
Qed.

Lemma invoke_refused c w t r :
  next_outcome w = Responds t r → t < timeout_budget c → ok r = false →
  ∃ e, (invoke c w).1 = Throw e.
Proof.
  intros Hnext Ht Hok.
  destruct c; simpl in *;
    try (by eapply diagnoseImage_refused);
    by eapply requestWithTimeout_refused.
Qed.

Lemma invoke_refused_object c w t r fields :
  next_outcome w = Responds t r → t < timeout_budget c → ok r = false →
  json r = Normal (JObj fields) →
  (invoke c w).1
  = Throw (new_Error (ToString (js_or (assoc "error" fields) (JStr (fallback_message c))))).
Proof.
  intros Hnext Ht Hok Hjson.
  destruct c; simpl in *;
    try (by eapply diagnoseImage_refused_object);
    by eapply requestWithTimeout_refused_object.
Qed.

End Runner.

(** ** The request runner: timeouts, refusals, budgets, headers *)

Section Executor.
Context `{Runtime}.

(** C2, as the code has it. Whenever a call of a gateway method is
    aborted because its budget ran out before the network settled it,
    the call rejects with a timeout error of its own and never with the
    generic "Network error occurred". The message is "The request is
    taking longer than expected. Please try again." for every method
    that goes through [requestWithTimeout]; [diagnoseImage], which calls
    [fetch] itself, rejects with "Image analysis timeout - please try
    again". *)
Theorem timed_out_call_rejects_with_its_timeout_error c w :
  timeout_budget c <= latency_of (next_outcome w) →
  let outcome := (invoke c w).1 in
  outcome = Throw (new_Error (timeout_message c))
  ∧ outcome ≠ Throw (new_Error "Network error occurred")
  ∧ ((∀ image symptoms, c ≠ DiagnoseImage image symptoms) →
       outcome = Throw (new_Error
                   "The request is taking longer than expected. Please try again."))
  ∧ (∀ image symptoms, c = DiagnoseImage image symptoms →
       outcome = Throw (new_Error "Image analysis timeout - please try again")).
Proof.
  intros Hlate outcome.
  assert (Houtcome : outcome = Throw (new_Error (timeout_message c))).
  { subst outcome. destruct c; simpl in *;
      first [by apply diagnoseImage_aborted | by apply requestWithTimeout_aborted]. }
  rw Houtcome. split; [done|]. split; [|split].
  - by destruct c.
  - intros Hrunner. destruct c; try done. by destruct (Hrunner image symptoms).
  - by intros image symptoms ->.
Qed.

(** C3, as the code has it. When the response of a gateway method
    arrives with a status outside 200-299, the call never resolves: it
    rejects. When the body is a JSON object, the message of the error is
    the [error] member if that is a non-empty string, and the fixed
    fallback of the method if the member is absent or the empty string. *)
Theorem refused_call_rejects_with_error_member c w t r :
  next_outcome w = Responds t r → t < timeout_budget c →
  status r < 200 ∨ 299 < status r →
  (∃ e, (invoke c w).1 = Throw e)
  ∧ ∀ fields, json r = Normal (JObj fields) →
      (∀ s, assoc "error" fields = JStr s → s ≠ EmptyString →
            (invoke c w).1 = Throw (new_Error s))
      ∧ (assoc "error" fields = JUndefined ∨ assoc "error" fields = JStr EmptyString →
            (invoke c w).1 = Throw (new_Error (fallback_message c))).
Proof.
  intros Hnext Ht Hstatus.
  assert (Hok : ok r = false).
  { rw /ok. apply andb_false_iff. rw Z.leb_gt Z.leb_gt. lia. }
  split; [by eapply invoke_refused|].
  intros fields Hjson.
  rw (invoke_refused_object c w t r fields Hnext Ht Hok Hjson).
  split.
  - intros s -> Hs. rw /js_or /=.
    destruct (String.eqb_spec s EmptyString); [done|done].
  - by intros [-> | ->].
Qed.

End Executor.

Section Requests.
Context `{Runtime}.

Lemma budgets_requestWithTimeout this endpoint options timeoutMs w :
  budgets (ApiClient.requestWithTimeout this endpoint options timeoutMs) w
  = [Some timeoutMs].
Proof.
  rw /budgets.
  by rw (issued_record_fetch _ _ _ (requestWithTimeout_world _ _ _ _ _)).
Qed.

Lemma budgets_diagnoseImage this image symptoms w :
  budgets (ApiClient.diagnoseImage this image symptoms) w = [Some 90000].
Proof.
  rw /budgets.
  by rw (issued_record_fetch _ _ _ (diagnoseImage_world _ _ _ _)).
Qed.

(** The methods classified as default path are those written with [request]. *)
Lemma default_path_request c :
  default_path c = true →
  ∃ endpoint options, invoke c = ApiClient.request api endpoint options.
Proof. destruct c; simpl; intros [=]; eauto. Qed.

(** The table [timeout_budget] is what the methods arm. *)
Lemma budgets_invoke c w : budgets (invoke c) w = [Some (timeout_budget c)].
Proof.
  destruct c; simpl;
    first [apply budgets_diagnoseImage | apply budgets_requestWithTimeout].
Qed.

(** C5. The delay of the abort timer is fixed per operation:
    [checkAuth] arms 5000 ms; [login], [register] and every other method
    on the default path 10000 ms; [diagnose] 60000 ms; [diagnoseImage]
    90000 ms; [sendChatMessage], [getChatHistory] and
    [getDiagnosisHistory] 30000 ms. *)
Theorem budget_per_operation w :
  budgets (ApiClient.checkAuth api) w = [Some 5000]
  ∧ (∀ username password, budgets (ApiClient.login api username password) w = [Some 10000])
  ∧ (∀ username email password,
       budgets (ApiClient.register api username email password) w = [Some 10000])
  ∧ (∀ c, default_path c = true → budgets (invoke c) w = [Some 10000])
  ∧ (∀ symptoms, budgets (ApiClient.diagnose api symptoms) w = [Some 60000])
  ∧ (∀ image symptoms, budgets (ApiClient.diagnoseImage api image symptoms) w = [Some 90000])
  ∧ (∀ message, budgets (ApiClient.sendChatMessage api message) w = [Some 30000])
  ∧ (∀ page perPage, budgets (ApiClient.getChatHistory api page perPage) w = [Some 30000])
  ∧ (∀ page perPage, budgets (ApiClient.getDiagnosisHistory api page perPage) w = [Some 30000]).
Proof.
  repeat split; intros;
    try apply budgets_requestWithTimeout;
    try apply budgets_diagnoseImage.
  destruct (default_path_request c) as (endpoint & options & ->); [done|].
  apply budgets_requestWithTimeout.
Qed.

Lemma content_type_of_runner options timeoutMs url :
  headers_of (mkCall url (runner_init options timeoutMs)) !! "Content-Type"
  = match default ∅ (headers options) !! "Content-Type" with
    | Some v => Some v
    | None => if body_is_FormData (body options) then None
              else Some "application/json"
    end.
Proof.
  rw /headers_of /= /spread lookup_union.
  destruct (default ∅ (headers options) !! "Content-Type") as [v|]; simpl.
  - by destruct (_ !! _).
  - destruct (body_is_FormData (body options)).
    + by rw lookup_empty.
    + by rw lookup_singleton_eq.
Qed.

(** C7. Every request the runner issues carries [credentials: 'include'],
    and its [Content-Type] is the caller's own if the options bring one
    and otherwise [application/json] exactly when the body is not a
    [FormData]. No method of the gateway brings headers of its own: each
    issues one request, with [credentials: 'include'], with the JSON
    content type exactly when its body is not a [FormData], and with no
    header at all when it is. *)
Theorem requests_carry_credentials_and_content_type :
  (∀ this endpoint options timeoutMs w,
     ∃ k, issued (ApiClient.requestWithTimeout this endpoint options timeoutMs) w = [k]
       ∧ credentials (call_init k) = Some "include"
       ∧ headers_of k !! "Content-Type"
         = match default ∅ (headers options) !! "Content-Type" with
           | Some v => Some v
           | None => if body_is_FormData (body options) then None
                     else Some "application/json"
           end)
  ∧ (∀ c w,
       ∃ k, issued (invoke c) w = [k]
         ∧ credentials (call_init k) = Some "include"
         ∧ (headers_of k !! "Content-Type" = Some "application/json"
            ↔ body_is_FormData (body (call_init k)) = false)
         ∧ (body_is_FormData (body (call_init k)) = true → headers_of k = ∅)).
Proof.
  split.
  - intros. eexists. split; [|split].
    + apply issued_record_fetch, requestWithTimeout_world.
    + done.
    + apply content_type_of_runner.
  - intros c w.
    destruct c; simpl;
      (eexists; split;
       [first [apply issued_record_fetch, diagnoseImage_world
              | apply issued_record_fetch, requestWithTimeout_world]|]);
      (split; [done|]);
      try rw content_type_of_runner;
      rw /headers_of /= /spread;
      try rw lookup_empty; try rw (left_id_L ∅ (∪)); done.
Qed.

(** C10. The multipart payload of [diagnoseImage(image, symptoms)] is
    the [image] entry alone when [symptoms] is absent or the empty
    string, and the [image] entry followed by the [symptoms] entry when
    [symptoms] is a non-empty string. *)
Theorem diagnoseImage_payload image symptoms w :
  ∃ k fd,
    issued (ApiClient.diagnoseImage api image symptoms) w = [k]
    ∧ form_of k = Some fd
    ∧ (symptoms = None ∨ symptoms = Some EmptyString →
         fd = [("image", FormFile image)])
    ∧ (∀ s, symptoms = Some s → s ≠ EmptyString →
         fd = [("image", FormFile image); ("symptoms", FormString s)]).
Proof.
  eexists _, _. split; [|split; [|split]].
  - apply issued_record_fetch, diagnoseImage_world.
  - done.
  - by intros [-> | ->].
  - intros s -> Hs. rw /ApiClient.diagnoseImage_formData /=.
    by destruct (String.eqb_spec s EmptyString).
Qed.

End Requests.

(** ** The auth coordinator *)

Section Coordinator.
Context `{Runtime}.

Lemma login_world username password w :
  (ApiClient.login api username password w).2
  = record_fetch (login_call username password) w.
Proof.
  rw /ApiClient.login /ApiClient.request requestWithTimeout_world.
  by rw /runner_init /login_call /= /spread (left_id_L ∅ (∪)).
Qed.

Lemma run_login username password w :
  ApiClient.login api username password w
  = ((ApiClient.login api username password w).1,
     record_fetch (login_call username password) w).
Proof. rw -login_world. by destruct (ApiClient.login _ _ _ _). Qed.

Lemma try_catch_total (body : Async unit) handler w :
  (∀ e w', (handler e w').1 = Normal tt) →
  (try_catch body handler w).1 = Normal tt.
Proof.
  intros Hhandler. rw /try_catch.
  destruct (body w) as [[[]|e] w']; [done|apply Hhandler].
Qed.

(** *** The storage

    An item that can be read shows that the storage is accessible; an
    accessible storage answers [getItem] and [removeItem], and a storage
    the page is denied throws at both and is not changed. *)

Lemma readable_item (s : Storage) key text : s !! key = Some text → access_error s = None.
Proof. by destruct s. Qed.

Lemma access_error_delete key (s : Storage) : access_error (delete key s) = access_error s.
Proof. by destruct s. Qed.

Lemma write_error_accessible (s : Storage) : write_error s = None → access_error s = None.
Proof. by destruct s. Qed.

Lemma delete_denied key (s : Storage) e : access_error s = Some e → delete key s = s.
Proof. by destruct s. Qed.

Lemma Storage_lookup_delete key (s : Storage) : delete key s !! key = None.
Proof. destruct s; [done|]. apply (lookup_delete_eq (M := gmap string)). Qed.

Lemma Storage_lookup_delete_ne key key' (s : Storage) :
  key ≠ key' → delete key s !! key' = s !! key'.
Proof. intros Hne. destruct s; [done|]. by apply (lookup_delete_ne (M := gmap string)). Qed.

Lemma Storage_lookup_insert key value (s : Storage) :
  access_error s = None → <[key := value]> s !! key = Some value.
Proof. destruct s; [done|]. intros _. apply (lookup_insert_eq (M := gmap string)). Qed.

Lemma Storage_lookup_insert_ne key key' value (s : Storage) :
  key ≠ key' → <[key := value]> s !! key' = s !! key'.
Proof. intros Hne. destruct s; [done|]. by apply (lookup_insert_ne (M := gmap string)). Qed.

Lemma getItem_read key w text :
  localStorage w !! key = Some text → localStorage_getItem key w = (Normal (Some text), w).
Proof.
  intros Hstored. rw /localStorage_getItem (readable_item _ _ _ Hstored). by rw Hstored.
Qed.

Lemma getItem_accessible key w :
  access_error (localStorage w) = None →
  localStorage_getItem key w = (Normal (localStorage w !! key), w).
Proof. intros Hacc. by rw /localStorage_getItem Hacc. Qed.

Lemma removeItem_accessible key w :
  access_error (localStorage w) = None →
  localStorage_removeItem key w = (Normal tt, with_storage (delete key) w).
Proof. intros Hacc. by rw /localStorage_removeItem Hacc. Qed.

Lemma getItem_denied key w e :
  access_error (localStorage w) = Some e → localStorage_getItem key w = (Throw e, w).
Proof. intros Hacc. by rw /localStorage_getItem Hacc. Qed.

Lemma removeItem_denied key w e :
  access_error (localStorage w) = Some e → localStorage_removeItem key w = (Throw e, w).
Proof. intros Hacc. by rw /localStorage_removeItem Hacc. Qed.

Lemma setItem_writable key value w :
  write_error (localStorage w) = None →
  localStorage_setItem key value w = (Normal tt, with_storage (insert key value) w).
Proof. intros Hw. by rw /localStorage_setItem Hw. Qed.

Lemma setItem_refused key value w e :
  write_error (localStorage w) = Some e → localStorage_setItem key value w = (Throw e, w).
Proof. intros Hw. by rw /localStorage_setItem Hw. Qed.

(** In a browser that denies the storage the silent re-login throws
    what the storage throws, from its [catch] block: the [removeItem]
    there is outside every [try]. Nothing has changed by then. *)
Lemma tryAutoLogin_denied w e :
  access_error (localStorage w) = Some e → AuthContext.tryAutoLogin w = (Throw e, w).
Proof.
  intros Hacc.
  by rw /AuthContext.tryAutoLogin /try_catch /mbind /Async_bind
        (getItem_denied _ _ _ Hacc) (removeItem_denied _ _ _ Hacc).
Qed.

Lemma truthy_text text v : JSON_parse text = Some v → negb (truthy (JStr text)) = false.
Proof.
  intros Hparse. simpl. destruct (String.eqb_spec text EmptyString) as [->|]; [|done].
  by rw JSON_parse_empty in Hparse.
Qed.

Ltac open_record Hstored Hparse :=
  rw /AuthContext.tryAutoLogin /try_catch /mbind /Async_bind (getItem_read _ _ _ Hstored)
     /call_with_surplus;
  cbv beta iota;
  rw (truthy_text _ _ Hparse) /JSON_parse_or_throw Hparse /=.

(** A stored record without a usable username or password is erased,
    and nothing else happens. *)
Lemma tryAutoLogin_incomplete w text fields :
  localStorage w !! AuthContext.STORAGE_KEY = Some text →
  JSON_parse text = Some (JObj fields) →
  truthy (assoc "username" fields) = false ∨ truthy (assoc "password" fields) = false →
  AuthContext.tryAutoLogin w = (Normal tt, with_storage (delete AuthContext.STORAGE_KEY) w).
Proof.
  intros Hstored Hparse Hfalsy. open_record Hstored Hparse.
  pose proof (removeItem_accessible AuthContext.STORAGE_KEY w
                (readable_item _ _ _ Hstored)) as Hremove.
  destruct (truthy (assoc "username" fields)); simpl; [|by rw Hremove].
  destruct Hfalsy as [[=] | ->]. by rw /= Hremove.
Qed.

(** A stored record with both is tried once, and the world that
    results depends on how the login call completes. *)
Lemma tryAutoLogin_attempt w text fields :
  localStorage w !! AuthContext.STORAGE_KEY = Some text →
  JSON_parse text = Some (JObj fields) →
  truthy (assoc "username" fields) = true → truthy (assoc "password" fields) = true →
  let username := assoc "username" fields in
  let password := assoc "password" fields in
  let w1 := record_fetch (login_call username password) w in
  AuthContext.tryAutoLogin w
  = (Normal tt,
     match (ApiClient.login api username password w).1 with
     | Normal (JUndefined | JNull) | Throw _ =>
         logged "Auto-login failed, credentials cleared"
           (with_storage (delete AuthContext.STORAGE_KEY) w1)
     | Normal response =>
         logged "✅ Auto-login successful" (set_user (member "user" response) w1)
     end).
Proof.
  intros Hstored Hparse Hu Hp username password w1.
  open_record Hstored Hparse. rw Hu Hp /= run_login.
  fold username password w1.
  assert (Hremove : localStorage_removeItem AuthContext.STORAGE_KEY w1
                    = (Normal tt, with_storage (delete AuthContext.STORAGE_KEY) w1))
    by (apply removeItem_accessible; exact (readable_item _ _ _ Hstored)).
  destruct (ApiClient.login api username password w).1 as [response|e]; simpl;
    [|by rw Hremove].
  destruct response; simpl; by rw ?Hremove.
Qed.

(** With an accessible storage the silent re-login absorbs every
    failure. What it does to the world: at most one login call, at most
    the erasure of the record, no toast. *)
Lemma tryAutoLogin_accessible w :
  access_error (localStorage w) = None →
  let after := (AuthContext.tryAutoLogin w).2 in
  (AuthContext.tryAutoLogin w).1 = Normal tt
  ∧ (fetched after = fetched w
     ∨ ∃ username password, fetched after = fetched w ++ [login_call username password])
  ∧ (localStorage after = localStorage w
     ∨ localStorage after = delete AuthContext.STORAGE_KEY (localStorage w))
  ∧ toasts after = toasts w
  ∧ loading after = loading w.
Proof.
  intros Hacc.
  pose proof (removeItem_accessible AuthContext.STORAGE_KEY w Hacc) as Hremove.
  assert (Hremove' : ∀ k, localStorage_removeItem AuthContext.STORAGE_KEY (record_fetch k w)
                          = (Normal tt, with_storage (delete AuthContext.STORAGE_KEY)
                                          (record_fetch k w)))
    by (intros k; by apply removeItem_accessible).
  rw /AuthContext.tryAutoLogin /try_catch /mbind /Async_bind (getItem_accessible _ _ Hacc)
     /call_with_surplus.
  cbv beta iota zeta.
  destruct (localStorage w !! AuthContext.STORAGE_KEY) as [text|]; [|by auto].
  destruct (negb (truthy (JStr text))); [by auto|].
  rw /JSON_parse_or_throw.
  destruct (JSON_parse text) as [creds|]; simpl; [|rw Hremove /=; by auto].
  destruct creds as [| | | | | |fields]; simpl; try (rw Hremove /=; by auto).
  destruct (truthy (assoc "username" fields)); simpl; [|rw Hremove /=; by auto].
  destruct (truthy (assoc "password" fields)); simpl; [|rw Hremove /=; by auto].
  rw run_login.
  destruct (ApiClient.login api _ _ w).1 as [response|e]; simpl.
  - destruct response; simpl; rw ?Hremove' /=;
      (split; [done|]; split; [right; by eauto|by auto]).
  - rw Hremove' /=. split; [done|]. split; [right; by eauto|by auto].
Qed.

Lemma tryAutoLogin_total w :
  access_error (localStorage w) = None → (AuthContext.tryAutoLogin w).1 = Normal tt.
Proof. intros Hacc. by destruct (tryAutoLogin_accessible w Hacc). Qed.

(** The ways through [checkAuth]: a session check that does not
    confirm a session leads to the silent re-login, which completes when
    the storage is accessible and throws when the page is denied it; in
    either case [loading] has been set to false by the [finally]. *)
Lemma checkAuth_not_authenticated w :
  access_error (localStorage w) = None →
  not_authenticated (ApiClient.checkAuth api w).1 →
  AuthContext.checkAuth w
  = (Normal tt,
     set_loading false
       (AuthContext.tryAutoLogin (set_user JNull (ApiClient.checkAuth api w).2)).2).
Proof.
  intros Hacc.
  assert (Hacc1 : access_error (localStorage (set_user JNull (ApiClient.checkAuth api w).2))
                  = None).
  { destruct (invoke_world CheckAuth w) as [k Hk]. simpl in Hk. by rw /= Hk. }
  revert Hacc1.
  rw /AuthContext.checkAuth /try_finally /try_catch /mbind /Async_bind.
  destruct (ApiClient.checkAuth api w) as [[response|e] w1]; simpl.
  - intros Hacc1 Hno.
    destruct response; simpl in *; rw ?Hno /= /setLoading;
      by destruct (AuthContext.tryAutoLogin _) as [[[]|?] ?] eqn:E;
         pose proof (tryAutoLogin_total (set_user JNull w1) Hacc1) as T; rw E in T.
  - intros Hacc1 _. rw /setLoading.
    by destruct (AuthContext.tryAutoLogin _) as [[[]|?] ?] eqn:E;
       pose proof (tryAutoLogin_total (set_user JNull w1) Hacc1) as T; rw E in T.
Qed.

Lemma checkAuth_denied w e :
  access_error (localStorage w) = Some e →
  not_authenticated (ApiClient.checkAuth api w).1 →
  AuthContext.checkAuth w
  = (Throw e, set_loading false (set_user JNull (ApiClient.checkAuth api w).2)).
Proof.
  intros Hacc.
  assert (Hacc1 : access_error (localStorage (set_user JNull (ApiClient.checkAuth api w).2))
                  = Some e).
  { destruct (invoke_world CheckAuth w) as [k Hk]. simpl in Hk. by rw /= Hk. }
  revert Hacc1.
  rw /AuthContext.checkAuth /try_finally /try_catch /mbind /Async_bind.
  destruct (ApiClient.checkAuth api w) as [[response|e'] w1]; simpl.
  - intros Hacc1 Hno.
    destruct response; simpl in *; rw ?Hno /= /setLoading;
      by rw (tryAutoLogin_denied (set_user JNull w1) e Hacc1) /=
            ?(tryAutoLogin_denied (set_user JNull (set_user JNull w1)) e Hacc1).
  - intros Hacc1 _. by rw /setLoading (tryAutoLogin_denied (set_user JNull w1) e Hacc1).
Qed.

Lemma checkAuth_authenticated w response :
  (ApiClient.checkAuth api w).1 = Normal response →
  truthy (member "authenticated" response) = true →
  AuthContext.checkAuth w
  = (Normal tt,
     set_loading false (set_user (member "user" response) (ApiClient.checkAuth api w).2)).
Proof.
  rw /AuthContext.checkAuth /try_finally /try_catch /mbind /Async_bind.
  destruct (ApiClient.checkAuth api w) as [c w1]; simpl. intros -> Hyes.
  destruct response; simpl in *; try done; by rw Hyes.
Qed.

Lemma issued_nothing {A : Type} (m : Async A) w :
  fetched (m w).2 = fetched w → issued m w = [].
Proof. intros E. rw /issued E. apply drop_all. Qed.

Lemma issued_two {A : Type} (m : Async A) w k1 k2 :
  fetched (m w).2 = (fetched w ++ [k1]) ++ [k2] → issued m w = [k1; k2].
Proof. intros E. rw /issued E -app_assoc. by rw drop_app_length. Qed.

Lemma checkAuth_world w :
  (ApiClient.checkAuth api w).2 = record_fetch session_check_call w.
Proof. apply requestWithTimeout_world. Qed.

(** C1, as the code has it. When the session check does not confirm a
    session and the stored record holds a non-empty username and
    password, the coordinator makes one login call with them, the second
    and last request of the reconciliation. If that call resolves to a
    response object, the user becomes the [user] member of the response
    and the record stays; if it fails, the record is erased and the user
    is [null]. *)
Theorem silent_relogin w text fields :
  localStorage w !! AuthContext.STORAGE_KEY = Some text →
  JSON_parse text = Some (JObj fields) →
  truthy (assoc "username" fields) = true →
  truthy (assoc "password" fields) = true →
  not_authenticated (ApiClient.checkAuth api w).1 →
  let username := assoc "username" fields in
  let password := assoc "password" fields in
  let anonymous := set_user JNull (ApiClient.checkAuth api w).2 in
  let after := (AuthContext.checkAuth w).2 in
  issued AuthContext.checkAuth w = [session_check_call; login_call username password]
  ∧ match (ApiClient.login api username password anonymous).1 with
    | Normal response =>
        has_members response →
        user after = member "user" response
        ∧ localStorage after = localStorage w
    | Throw _ =>
        user after = JNull
        ∧ localStorage after = delete AuthContext.STORAGE_KEY (localStorage w)
    end.
Proof.
  intros Hstored Hparse Hu Hp Hno username password anonymous after.
  pose proof (checkAuth_not_authenticated _ (readable_item _ _ _ Hstored) Hno) as Hrun.
  subst after. rw Hrun /=.
  pose proof (checkAuth_world w) as Hk.
  assert (Hs : localStorage anonymous !! AuthContext.STORAGE_KEY = Some text).
  { subst anonymous. by rw Hk. }
  rw (tryAutoLogin_attempt _ _ _ Hs Hparse Hu Hp) /=.
  fold username password anonymous.
  split.
  - apply issued_two.
    rw Hrun /=.
    rw (tryAutoLogin_attempt _ _ _ Hs Hparse Hu Hp) /=.
    fold username password anonymous.
    assert (Hf : fetched anonymous = fetched w ++ [session_check_call])
      by (subst anonymous; by rw Hk).
    destruct (ApiClient.login api username password anonymous).1 as [[]|]; simpl;
      by rw Hf.
  - assert (Hl : localStorage anonymous = localStorage w) by (subst anonymous; by rw Hk).
    destruct (ApiClient.login api username password anonymous).1 as [response|e];
      simpl; [|by rw Hl].
    intros [Hnull Hundef]. destruct response; simpl; by rw ?Hl.
Qed.

(** C4. When the server call of [logout()] throws, the user keeps its
    value and the storage is left as it was (an error toast is all that
    happens); when it resolves, the user is set to [null] and the stored
    record is erased. *)
Theorem logout_clears_only_on_success w :
  let after := (AuthContext.logout w).2 in
  (∀ e, (ApiClient.logout api w).1 = Throw e →
        user after = user w
        ∧ localStorage after = localStorage w
        ∧ toasts after = toasts w ++ [ToastError "Logout failed"])
  ∧ (∀ v, (ApiClient.logout api w).1 = Normal v →
        user after = JNull
        ∧ localStorage after = delete AuthContext.STORAGE_KEY (localStorage w)).
Proof.
  intros after. subst after.
  rw /AuthContext.logout /try_catch /mbind /Async_bind.
  destruct (invoke_world Logout w) as [k Hk]. simpl in Hk.
  destruct (ApiClient.logout api w) as [[v|e] w1]; simpl in *; subst w1;
    split; intros ? [=]; try done.
  rw /localStorage_removeItem /=.
  destruct (access_error (localStorage w)) eqn:Hacc; simpl; [|done].
  by rw (delete_denied _ _ _ Hacc).
Qed.

(** C9. When the stored record lacks a username or a password, or
    holds an empty one, the silent re-login erases the record and returns
    normally: it issues no request and leaves the user as it was. *)
Theorem malformed_record_is_erased w text fields :
  localStorage w !! AuthContext.STORAGE_KEY = Some text →
  JSON_parse text = Some (JObj fields) →
  (assoc "username" fields = JUndefined ∨ assoc "username" fields = JStr EmptyString
   ∨ assoc "password" fields = JUndefined ∨ assoc "password" fields = JStr EmptyString) →
  let after := (AuthContext.tryAutoLogin w).2 in
  (AuthContext.tryAutoLogin w).1 = Normal tt
  ∧ localStorage after = delete AuthContext.STORAGE_KEY (localStorage w)
  ∧ issued AuthContext.tryAutoLogin w = []
  ∧ user after = user w.
Proof.
  intros Hstored Hparse Hbad after. subst after.
  assert (Hfalsy : truthy (assoc "username" fields) = false
                   ∨ truthy (assoc "password" fields) = false).
  { destruct Hbad as [-> | [-> | [-> | ->]]]; auto. }
  pose proof (tryAutoLogin_incomplete _ _ _ Hstored Hparse Hfalsy) as E.
  split; [by rw E|]. split; [by rw E|]. split; [|by rw E].
  apply issued_nothing. by rw E.
Qed.

End Coordinator.

(** ** Worked examples on the sample runtime *)

Section Examples.
#[local] Existing Instance sample_runtime.

Example alice_record_parses :
  JSON_parse alice_record = Some (credentials_record "alice" "s3cret").
Proof. reflexivity. Qed.

Example returning_user_signs_in :
  AuthContext.checkAuth returning_user
  = (Normal tt,
     set_loading false
       (logged "✅ Auto-login successful"
          (set_user alice
             (record_fetch (login_call (JStr "alice") (JStr "s3cret"))
                (set_user JNull
                   (record_fetch session_check_call returning_user)))))).
Proof. vm_compute. reflexivity. Qed.

Example revoked_user_stays_out :
  user (AuthContext.checkAuth revoked_user).2 = JNull
  ∧ localStorage (AuthContext.checkAuth revoked_user).2 = ∅
  ∧ length (fetched (AuthContext.checkAuth revoked_user).2) = 2%nat.
Proof. vm_compute. done. Qed.

Example failed_logout_keeps_session :
  let w := signed_in [Responds 50 (mkResponse 500 (Normal (JObj [("error", JStr "boom")])))] in
  (ApiClient.logout api w).1 = Throw (new_Error "boom")
  ∧ user (AuthContext.logout w).2 = alice
  ∧ localStorage (AuthContext.logout w).2 = localStorage w
  ∧ toasts (AuthContext.logout w).2 = [ToastError "Logout failed"].
Proof. vm_compute. done. Qed.

Example logout_clears_session :
  let w := signed_in [Responds 50 (mkResponse 200 (Normal (JObj [("message", JStr "bye")])))] in
  user (AuthContext.logout w).2 = JNull
  ∧ localStorage (AuthContext.logout w).2 = ∅.
Proof. vm_compute. done. Qed.

Example image_analysis_times_out :
  let w := mount ∅ [Responds 95000 (mkResponse 200 (Normal JNull))] in
  (ApiClient.diagnoseImage api (mkFile "rash.png" "image/png" 20480) (Some EmptyString) w).1
  = Throw (new_Error "Image analysis timeout - please try again").
Proof. reflexivity. Qed.

Example html_error_page_is_rethrown :
  let w := mount ∅ [Responds 40 (mkResponse 502 (Throw SyntaxError))] in
  (ApiClient.healthCheck api w).1 = Throw SyntaxError.
Proof. reflexivity. Qed.

(** The session check of [slow_answer] is answered after 7 seconds,
    past its budget of 5: it rejects as a timeout. *)
Lemma timed_out_call_witness :
  timeout_budget CheckAuth <= latency_of (next_outcome slow_answer)
  ∧ (invoke CheckAuth slow_answer).1
    = Throw (new_Error "The request is taking longer than expected. Please try again.").
Proof.
  assert (Hlate : timeout_budget CheckAuth <= latency_of (next_outcome slow_answer))
    by (simpl; lia).
  split; [exact Hlate|].
  exact (proj1 (timed_out_call_rejects_with_its_timeout_error CheckAuth slow_answer Hlate)).
Defined.

(** An image analysis answered after 95 seconds, past its budget of
    90, was aborted by its timer; the error it rejects with is not the
    one of the runner. *)
Lemma timed_out_image_analysis_has_another_error :
  timeout_budget (DiagnoseImage rash None) <= latency_of (next_outcome stalled_analysis)
  ∧ (invoke (DiagnoseImage rash None) stalled_analysis).1
    = Throw (new_Error "Image analysis timeout - please try again")
  ∧ (invoke (DiagnoseImage rash None) stalled_analysis).1
    ≠ Throw (new_Error "The request is taking longer than expected. Please try again.").
Proof. split; [simpl; lia|]. split; [reflexivity|]. intros [=]. Qed.

(** A login refused with 401 and [{error: 'Invalid credentials'}]
    rejects with that message. *)
Lemma refused_call_witness :
  (invoke (Login (JStr "alice") (JStr "wrong")) denied_login).1
  = Throw (new_Error "Invalid credentials").
Proof.
  pose proof (refused_call_rejects_with_error_member
                (Login (JStr "alice") (JStr "wrong")) denied_login 120
                (mkResponse 401 (Normal (JObj [("error", JStr "Invalid credentials")]))))
    as Hrefused.
  destruct Hrefused as [_ Hmember].
  - reflexivity.
  - simpl. lia.
  - right. simpl. lia.
  - destruct (Hmember [("error", JStr "Invalid credentials")] eq_refl) as [Hstring _].
    apply Hstring; [reflexivity|discriminate].
Defined.

(** The same login refused with [{error: ''}]: the member is there and
    is the empty string, yet the message is the fallback. *)
Lemma empty_error_member_gives_fallback :
  next_outcome refused_login
  = Responds 120 (mkResponse 401 (Normal (JObj [("error", JStr EmptyString)])))
  ∧ (invoke (Login (JStr "alice") (JStr "wrong")) refused_login).1
    = Throw (new_Error "Request failed")
  ∧ (invoke (Login (JStr "alice") (JStr "wrong")) refused_login).1
    ≠ Throw (new_Error EmptyString).
Proof. split; [reflexivity|]. split; [reflexivity|]. intros [=]. Qed.

(** The returning user is signed in from her stored record. *)
Lemma silent_relogin_witness :
  issued AuthContext.checkAuth returning_user
  = [session_check_call; login_call (JStr "alice") (JStr "s3cret")]
  ∧ user (AuthContext.checkAuth returning_user).2 = alice
  ∧ localStorage (AuthContext.checkAuth returning_user).2 = localStorage returning_user.
Proof.
  pose proof (silent_relogin returning_user alice_record
                [("username", JStr "alice"); ("password", JStr "s3cret")]) as Hrelogin.
  destruct Hrelogin as [_ Hlogin].
  - reflexivity.
  - reflexivity.
  - reflexivity.
  - reflexivity.
  - reflexivity.
  - split; [reflexivity|]. apply Hlogin. split; discriminate.
Defined.

(** The record of [stale_record] exists and the session check reports
    no session, yet no login is attempted: the one request of the
    reconciliation is the session check, and the record is erased. *)
Lemma record_without_username_is_not_tried :
  localStorage stale_record !! AuthContext.STORAGE_KEY = Some blank_record
  ∧ JSON_parse blank_record = Some (credentials_record EmptyString "s3cret")
  ∧ not_authenticated (ApiClient.checkAuth api stale_record).1
  ∧ issued AuthContext.checkAuth stale_record = [session_check_call]
  ∧ filter (fun k => is_login_call k = true) (issued AuthContext.checkAuth stale_record) = []
  ∧ localStorage (AuthContext.checkAuth stale_record).2 = ∅.
Proof. repeat split; reflexivity. Qed.

(** The silent re-login on that record. *)
Lemma malformed_record_witness :
  (AuthContext.tryAutoLogin stale_record).1 = Normal tt
  ∧ localStorage (AuthContext.tryAutoLogin stale_record).2
    = delete AuthContext.STORAGE_KEY (localStorage stale_record)
  ∧ issued AuthContext.tryAutoLogin stale_record = []
  ∧ user (AuthContext.tryAutoLogin stale_record).2 = user stale_record.
Proof.
  apply (malformed_record_is_erased stale_record blank_record
           [("username", JStr EmptyString); ("password", JStr "s3cret")]).
  - reflexivity.
  - reflexivity.
  - right. left. reflexivity.
Defined.

End Examples.

(** ** The gateway beyond refusals: answers, failures, request shape *)

Section GatewayBehaviour.
Context `{Runtime}.

Ltac answered Hnext Ht :=
  rw /try_catch /mbind /Async_bind /fetch Hnext;
  erewrite settle_in_time; [|reflexivity|exact Ht];
  rw /= /Response_json.

Lemma settle_failure init ms t e :
  signal init = Some ms → t < ms → settle init (Fails t e) = Throw e.
Proof.
  intros Hs Ht. rw /settle /timer_fires_first Hs /=.
  by rw (proj2 (Z.leb_gt _ _) Ht).
Qed.

Ltac failed Hnext Ht :=
  rw /try_catch /mbind /Async_bind /fetch Hnext;
  erewrite settle_failure; [|reflexivity|exact Ht];
  rw /=.

Lemma accepted r : 200 <= status r <= 299 → ok r = true.
Proof. intros [Hlo Hhi]. rw /ok. apply andb_true_iff. rw Z.leb_le Z.leb_le. lia. Qed.

Lemma not_abort name : name ≠ "AbortError" → String.eqb name "AbortError" = false.
Proof. intros Hne. by destruct (String.eqb_spec name "AbortError"). Qed.

(** Every method, through the runner or not, ends in the same three
    steps; the lemmas below are stated once for both. *)
Lemma invoke_cases (P : Async JsVal → Prop) c :
  (∀ endpoint options, P (ApiClient.requestWithTimeout api endpoint options (timeout_budget c))) →
  (∀ image symptoms, timeout_budget c = 90000 → P (ApiClient.diagnoseImage api image symptoms)) →
  P (invoke c).
Proof. intros Hrunner Himage. destruct c; simpl; first [apply Himage; done | apply Hrunner]. Qed.

(** X1. A response that arrives before the budget runs out, with a
    status in 200-299 and a JSON body, resolves the call of any gateway
    method with that body. *)
Theorem answered_call_resolves_with_body c w t r data :
  next_outcome w = Responds t r → t < timeout_budget c →
  200 <= status r <= 299 → json r = Normal data →
  (invoke c w).1 = Normal data.
Proof.
  intros Hnext Ht Hstatus Hjson. pose proof (accepted r Hstatus) as Hok.
  apply (invoke_cases (fun m => (m w).1 = Normal data)).
  - intros. rw /ApiClient.requestWithTimeout. answered Hnext Ht. by rw Hjson /= Hok.
  - intros image symptoms Hb. rw Hb in Ht.
    rw /ApiClient.diagnoseImage. answered Hnext Ht. by rw Hjson /= Hok.
Qed.

(** X2. An [Error] that is not an [AbortError] reaches the caller
    unchanged, whether [fetch] rejected with it before the budget ran out
    or [response.json()] did (a body that is not JSON), and in the second
    case whatever the status of the response, 2xx included. *)
Theorem errors_reach_the_caller_unchanged c w name message :
  name ≠ "AbortError" →
  (∀ t, next_outcome w = Fails t (ErrorObj name message) → t < timeout_budget c →
        (invoke c w).1 = Throw (ErrorObj name message))
  ∧ (∀ t r, next_outcome w = Responds t r → t < timeout_budget c →
            json r = Throw (ErrorObj name message) →
            (invoke c w).1 = Throw (ErrorObj name message)).
Proof.
  intros Hname. pose proof (not_abort name Hname) as Hno. split.
  - intros t Hnext Ht.
    apply (invoke_cases (fun m => (m w).1 = Throw (ErrorObj name message))).
    + intros. rw /ApiClient.requestWithTimeout. failed Hnext Ht. by rw Hno.
    + intros image symptoms Hb. rw Hb in Ht.
      rw /ApiClient.diagnoseImage. failed Hnext Ht. by rw Hno.
  - intros t r Hnext Ht Hjson.
    apply (invoke_cases (fun m => (m w).1 = Throw (ErrorObj name message))).
    + intros. rw /ApiClient.requestWithTimeout. answered Hnext Ht. by rw Hjson /= Hno.
    + intros image symptoms Hb. rw Hb in Ht.
      rw /ApiClient.diagnoseImage. answered Hnext Ht. by rw Hjson /= Hno.
Qed.

(** X3. The generic "Network error occurred" is what the caller gets
    when the value thrown by [fetch] or by [response.json()] is not an
    [Error] instance. *)
Theorem thrown_non_error_is_network_error c w v :
  (∀ t, next_outcome w = Fails t (NonError v) → t < timeout_budget c →
        (invoke c w).1 = Throw (new_Error "Network error occurred"))
  ∧ (∀ t r, next_outcome w = Responds t r → t < timeout_budget c →
            json r = Throw (NonError v) →
            (invoke c w).1 = Throw (new_Error "Network error occurred")).
Proof.
  split.
  - intros t Hnext Ht.
    apply (invoke_cases (fun m => (m w).1 = Throw (new_Error "Network error occurred"))).
    + intros. rw /ApiClient.requestWithTimeout. by failed Hnext Ht.
    + intros image symptoms Hb. rw Hb in Ht.
      rw /ApiClient.diagnoseImage. by failed Hnext Ht.
  - intros t r Hnext Ht Hjson.
    apply (invoke_cases (fun m => (m w).1 = Throw (new_Error "Network error occurred"))).
    + intros. rw /ApiClient.requestWithTimeout. answered Hnext Ht. by rw Hjson.
    + intros image symptoms Hb. rw Hb in Ht.
      rw /ApiClient.diagnoseImage. answered Hnext Ht. by rw Hjson.
Qed.

(** X4. Whatever the network does, a gateway method makes exactly one
    [fetch] call and uses up exactly one outcome: it never retries. It
    changes nothing else: not the user, the loading flag, the storage,
    the console or the toasts. *)
Theorem gateway_call_is_one_request c w :
  (∃ k, issued (invoke c) w = [k])
  ∧ network (invoke c w).2 = tl (network w)
  ∧ user (invoke c w).2 = user w
  ∧ loading (invoke c w).2 = loading w
  ∧ localStorage (invoke c w).2 = localStorage w
  ∧ console (invoke c w).2 = console w
  ∧ toasts (invoke c w).2 = toasts w.
Proof.
  destruct (invoke_world c w) as [k Hk]. split.
  - exists k. by apply issued_record_fetch.
  - by rw Hk.
Qed.

(** X6. An image analysis that its own 90 s timer aborts rejects with
    "Image analysis timeout - please try again": neither the runner's
    timeout message nor the generic network error. *)
Theorem aborted_image_analysis_has_its_own_message image symptoms w :
  90000 <= latency_of (next_outcome w) →
  let outcome := (ApiClient.diagnoseImage api image symptoms w).1 in
  outcome = Throw (new_Error "Image analysis timeout - please try again")
  ∧ outcome ≠ Throw (new_Error "The request is taking longer than expected. Please try again.")
  ∧ outcome ≠ Throw (new_Error "Network error occurred").
Proof.
  intros Hlate outcome. subst outcome.
  rw (diagnoseImage_aborted _ _ _ _ Hlate).
  split; [done|]. split; intros [=].
Qed.

(** X5. The request of every gateway method goes to a path under
    [/api/] of the base URL. A request that names no method (a GET)
    carries no body, and neither does a DELETE; the only other methods
    are POST and PUT. *)
Theorem gateway_request_shape c w :
  ∃ k, issued (invoke c) w = [k]
    ∧ (∃ path, call_url k = API_BASE_URL +:+ "/api/" +:+ path)
    ∧ match method (call_init k) with
      | None => body (call_init k) = None
      | Some verb =>
          (verb = "POST" ∨ verb = "PUT" ∨ verb = "DELETE")
          ∧ (verb = "DELETE" → body (call_init k) = None)
      end.
Proof.
  destruct c; simpl;
    (eexists; split;
     [first [apply issued_record_fetch, diagnoseImage_world
            | apply issued_record_fetch, requestWithTimeout_world]|]);
    simpl; (split; [eexists; reflexivity|]);
    first [done | split; [auto|done]].
Qed.

End GatewayBehaviour.

(** ** The coordinator beyond the reconciliation claims *)

Section CoordinatorBehaviour.
Context `{Runtime}.

Lemma register_world username email password w :
  ∃ k, (ApiClient.register api username email password w).2 = record_fetch k w.
Proof. eexists. apply requestWithTimeout_world. Qed.

Lemma logout_world w : ∃ k, (ApiClient.logout api w).2 = record_fetch k w.
Proof. eexists. apply requestWithTimeout_world. Qed.

(** Without a stored item, or with the empty string stored, the silent
    re-login does nothing at all, where it may read the storage. *)
Lemma tryAutoLogin_nothing_stored w :
  access_error (localStorage w) = None →
  localStorage w !! AuthContext.STORAGE_KEY = None
  ∨ localStorage w !! AuthContext.STORAGE_KEY = Some EmptyString →
  AuthContext.tryAutoLogin w = (Normal tt, w).
Proof.
  intros Hacc [Hs | Hs];
    by rw /AuthContext.tryAutoLogin /try_catch /mbind /Async_bind
          (getItem_accessible _ _ Hacc) Hs.
Qed.

(** What the silent re-login can do to the world, whatever is stored,
    whatever the network does and whether or not the storage can be
    accessed. *)
Lemma tryAutoLogin_shape w :
  let after := (AuthContext.tryAutoLogin w).2 in
  (fetched after = fetched w
   ∨ ∃ username password, fetched after = fetched w ++ [login_call username password])
  ∧ (localStorage after = localStorage w
     ∨ localStorage after = delete AuthContext.STORAGE_KEY (localStorage w))
  ∧ toasts after = toasts w
  ∧ loading after = loading w.
Proof.
  destruct (access_error (localStorage w)) as [e|] eqn:Hacc.
  - rw /= (tryAutoLogin_denied _ _ Hacc) /=. by auto.
  - by destruct (tryAutoLogin_accessible w Hacc) as (_ & Hshape).
Qed.

(** What [login] does once the login call has resolved to a response
    object: the user is set at once, and the rest depends on the write
    to storage, which is attempted only when [rememberMe] is true. *)
Lemma login_resolved username password rememberMe w response :
  (ApiClient.login api (JStr username) (JStr password) w).1 = Normal response →
  has_members response →
  let record := JSON_stringify (JObj [("username", JStr username);
                                      ("password", JStr password)]) in
  let w1 := set_user (member "user" response)
              (record_fetch (login_call (JStr username) (JStr password)) w) in
  AuthContext.login username password rememberMe w
  = match (if default false rememberMe then write_error (localStorage w) else None) with
    | None =>
        (Normal tt,
         toasted (ToastSuccess "Welcome back!")
           (if default false rememberMe
            then logged "✅ Credentials stored for auto-login"
                   (with_storage (insert AuthContext.STORAGE_KEY record) w1)
            else w1))
    | Some e =>
        (Throw e, toasted (ToastError (AuthContext.message_or e "Login failed")) w1)
    end.
Proof.
  intros Hlogin [Hnull Hundef] record w1.
  rw /AuthContext.login /try_catch /mbind /Async_bind /call_with_surplus run_login Hlogin.
  destruct response; try done; simpl; fold record;
    (destruct (default false rememberMe); simpl; [|done]);
    rw /localStorage_setItem /=;
    by destruct (write_error (localStorage w)).
Qed.

(** A [login] with [rememberMe] true that completed has left the
    record in the storage. *)
Lemma remembered_record username password w :
  (AuthContext.login username password (Some true) w).1 = Normal tt →
  localStorage (AuthContext.login username password (Some true) w).2
    !! AuthContext.STORAGE_KEY
  = Some (JSON_stringify (JObj [("username", JStr username); ("password", JStr password)])).
Proof.
  destruct (ApiClient.login api (JStr username) (JStr password) w).1
    as [response|e] eqn:Hlogin.
  - assert (Hcases : response = JUndefined ∨ response = JNull ∨ has_members response).
    { rw /has_members. destruct response; auto. }
    destruct Hcases as [-> | [-> | Hmembers]].
    1,2: by rw /AuthContext.login /try_catch /mbind /Async_bind /call_with_surplus
               run_login Hlogin.
    rw (login_resolved username password (Some true) w response Hlogin Hmembers) /=.
    destruct (write_error (localStorage w)) eqn:Hwrite; [done|]. intros _. simpl.
    apply Storage_lookup_insert. by apply write_error_accessible.
  - by rw /AuthContext.login /try_catch /mbind /Async_bind /call_with_surplus
          run_login Hlogin.
Qed.


(** X7. When the login call resolves to a response object, the user
    becomes the [user] member of the response at once. If [rememberMe]
    is not true nothing is written: [login] completes normally with a
    success toast and the storage, an older record included, stays as it
    was. If [rememberMe] is true the credentials are written under the
    coordinator's key: when the storage takes the write, [login]
    completes normally with the success toast; when [setItem] throws,
    [login] shows that error in an error toast and rethrows it, with the
    user already set and the storage unchanged. *)
Theorem login_stores_record_only_when_asked username password rememberMe w response :
  (ApiClient.login api (JStr username) (JStr password) w).1 = Normal response →
  has_members response →
  let run := AuthContext.login username password rememberMe w in
  let record := JSON_stringify (JObj [("username", JStr username);
                                      ("password", JStr password)]) in
  user run.2 = member "user" response
  ∧ (default false rememberMe = false →
       run.1 = Normal tt
       ∧ localStorage run.2 = localStorage w
       ∧ toasts run.2 = toasts w ++ [ToastSuccess "Welcome back!"])
  ∧ (default false rememberMe = true →
       match write_error (localStorage w) with
       | None =>
           run.1 = Normal tt
           ∧ localStorage run.2 = <[AuthContext.STORAGE_KEY := record]> (localStorage w)
           ∧ toasts run.2 = toasts w ++ [ToastSuccess "Welcome back!"]
       | Some e =>
           run.1 = Throw e
           ∧ localStorage run.2 = localStorage w
           ∧ toasts run.2
             = toasts w ++ [ToastError (AuthContext.message_or e "Login failed")]
       end).
Proof.
  intros Hlogin Hmembers run record. subst run.
  rw (login_resolved username password rememberMe w response Hlogin Hmembers).
  destruct (default false rememberMe); simpl.
  - destruct (write_error (localStorage w)); simpl; by auto.
  - by auto.
Qed.

(** X8. When the login call fails, [login] shows the error's message in
    an error toast and rethrows the same error to its caller; the user
    and the storage are left as they were. *)
Theorem failed_login_is_rethrown username password rememberMe w e :
  (ApiClient.login api (JStr username) (JStr password) w).1 = Throw e →
  let after := (AuthContext.login username password rememberMe w).2 in
  (AuthContext.login username password rememberMe w).1 = Throw e
  ∧ user after = user w
  ∧ localStorage after = localStorage w
  ∧ toasts after = toasts w ++ [ToastError (AuthContext.message_or e "Login failed")].
Proof.
  intros Hlogin after. subst after.
  by rw /AuthContext.login /try_catch /mbind /Async_bind /call_with_surplus run_login Hlogin.
Qed.

(** X9. [register] never writes to storage. When the register call
    resolves to a response object the user becomes its [user] member;
    when the call fails the error is shown in a toast and rethrown, and
    the user is unchanged. *)
Theorem register_never_stores username email password w :
  let after := (AuthContext.register username email password w).2 in
  localStorage after = localStorage w
  ∧ (∀ response,
       (ApiClient.register api username email password w).1 = Normal response →
       has_members response →
       (AuthContext.register username email password w).1 = Normal tt
       ∧ user after = member "user" response
       ∧ toasts after = toasts w ++ [ToastSuccess "Account created successfully!"])
  ∧ (∀ e,
       (ApiClient.register api username email password w).1 = Throw e →
       (AuthContext.register username email password w).1 = Throw e
       ∧ user after = user w
       ∧ toasts after
         = toasts w ++ [ToastError (AuthContext.message_or e "Registration failed")]).
Proof.
  intros after. subst after.
  rw /AuthContext.register /try_catch /mbind /Async_bind.
  destruct (register_world username email password w) as [k Hk].
  destruct (ApiClient.register api username email password w) as [[response|e] w1];
    simpl in *; subst w1.
  - split; [by destruct response|]. split; [|by intros ? [=]].
    intros ? [= <-] [Hnull Hundef]. by destruct response.
  - split; [done|]. split; [by intros ? [=]|]. by intros ? [= <-].
Qed.

Lemma issued_record_fetch_list {A : Type} (m : Async A) k w :
  fetched (m w).2 = fetched w ++ [k] → issued m w = [k].
Proof. intros E. rw /issued E. by rw drop_app_length. Qed.

(** The world in which the silent re-login starts after a session
    check that confirmed nothing. *)
Lemma anonymous_world w :
  let anonymous := set_user JNull (ApiClient.checkAuth api w).2 in
  localStorage anonymous = localStorage w
  ∧ fetched anonymous = fetched w ++ [session_check_call]
  ∧ toasts anonymous = toasts w.
Proof. by rw /= checkAuth_world. Qed.

Lemma relogin_requests w text fields :
  localStorage w !! AuthContext.STORAGE_KEY = Some text →
  JSON_parse text = Some (JObj fields) →
  truthy (assoc "username" fields) = true →
  truthy (assoc "password" fields) = true →
  not_authenticated (ApiClient.checkAuth api w).1 →
  issued AuthContext.checkAuth w
  = [session_check_call; login_call (assoc "username" fields) (assoc "password" fields)].
Proof.
  intros Hstored Hparse Hu Hp Hno.
  destruct (anonymous_world w) as (Hl & Hf & _).
  apply issued_two. rw (checkAuth_not_authenticated _ (readable_item _ _ _ Hstored) Hno) /=.
  assert (Hs : localStorage (set_user JNull (ApiClient.checkAuth api w).2)
               !! AuthContext.STORAGE_KEY = Some text) by (by rw Hl).
  rw (tryAutoLogin_attempt _ _ _ Hs Hparse Hu Hp) /=.
  destruct (ApiClient.login api _ _ _).1 as [[]|]; simpl; by rw Hf.
Qed.

Lemma checkAuth_without_relogin w :
  localStorage w !! AuthContext.STORAGE_KEY = None
  ∨ localStorage w !! AuthContext.STORAGE_KEY = Some EmptyString →
  not_authenticated (ApiClient.checkAuth api w).1 →
  AuthContext.checkAuth w
  = (match access_error (localStorage w) with
     | None => Normal tt
     | Some e => Throw e
     end,
     set_loading false (set_user JNull (ApiClient.checkAuth api w).2)).
Proof.
  intros Hstored Hno. destruct (anonymous_world w) as (Hl & _ & _).
  destruct (access_error (localStorage w)) as [e|] eqn:Hacc.
  - by apply checkAuth_denied.
  - rw (checkAuth_not_authenticated _ Hacc Hno) tryAutoLogin_nothing_stored;
      [done|by rw Hl|by rw Hl].
Qed.

(** X10. Round trip of "remember me". After a [login] with [rememberMe]
    true has succeeded, a fresh start of the application on the storage
    it left, with any network script, whose session check confirms no
    session, attempts a login with the very same username and password,
    provided they are not empty and the runtime parses back the record
    it serialised. *)
Theorem remembered_login_is_replayed username password w script :
  username ≠ EmptyString → password ≠ EmptyString →
  JSON_parse (JSON_stringify (JObj [("username", JStr username); ("password", JStr password)]))
  = Some (JObj [("username", JStr username); ("password", JStr password)]) →
  (AuthContext.login username password (Some true) w).1 = Normal tt →
  let restart := mount (localStorage (AuthContext.login username password (Some true) w).2)
                       script in
  not_authenticated (ApiClient.checkAuth api restart).1 →
  issued AuthContext.checkAuth restart
  = [session_check_call; login_call (JStr username) (JStr password)].
Proof.
  intros Hu Hp Hparse Hlogin restart Hno.
  pose proof (remembered_record username password w Hlogin) as Hstored.
  rw (relogin_requests restart _ _ Hstored Hparse).
  - done.
  - simpl. by destruct (String.eqb_spec username EmptyString).
  - simpl. by destruct (String.eqb_spec password EmptyString).
  - done.
Qed.

(** X11. When the session check confirms a session, the user becomes
    the [user] member of its answer and that is all: the check is the
    only request, the storage is not read or written (a stored record is
    neither tried nor erased), and [loading] ends false. *)
Theorem confirmed_session_needs_no_relogin w response :
  (ApiClient.checkAuth api w).1 = Normal response →
  truthy (member "authenticated" response) = true →
  let after := (AuthContext.checkAuth w).2 in
  user after = member "user" response
  ∧ issued AuthContext.checkAuth w = [session_check_call]
  ∧ localStorage after = localStorage w
  ∧ console after = console w
  ∧ loading after = false.
Proof.
  intros Hcheck Hyes after. subst after.
  split; [|split]; [..|by rw (checkAuth_authenticated _ _ Hcheck Hyes) /= checkAuth_world].
  - by rw (checkAuth_authenticated _ _ Hcheck Hyes).
  - apply issued_record_fetch_list.
    by rw (checkAuth_authenticated _ _ Hcheck Hyes) /= checkAuth_world.
Qed.

(** X12. When the session check confirms no session and nothing is
    stored under the coordinator's key, the reconciliation ends with the
    user [null] after that one request: no login is attempted and the
    storage and the console are untouched. This holds from any state, so
    a check that fails while a user is signed in signs the user out. *)
Theorem no_record_means_no_relogin w :
  localStorage w !! AuthContext.STORAGE_KEY = None →
  not_authenticated (ApiClient.checkAuth api w).1 →
  let after := (AuthContext.checkAuth w).2 in
  user after = JNull
  ∧ issued AuthContext.checkAuth w = [session_check_call]
  ∧ localStorage after = localStorage w
  ∧ console after = console w.
Proof.
  intros Hnone Hno after. subst after.
  rw (checkAuth_without_relogin w (or_introl Hnone) Hno) /=.
  split; [done|]. split; [|by rw checkAuth_world].
  apply issued_record_fetch_list.
  by rw (checkAuth_without_relogin w (or_introl Hnone) Hno) /= checkAuth_world.
Qed.

(** X13. A stored item that is not JSON, or that is the JSON [null], is
    erased by the silent re-login, which logs the failure, issues no
    request and leaves the user as it was. *)
Theorem unreadable_record_is_erased w text :
  localStorage w !! AuthContext.STORAGE_KEY = Some text → text ≠ EmptyString →
  JSON_parse text = None ∨ JSON_parse text = Some JNull →
  AuthContext.tryAutoLogin w
  = (Normal tt,
     logged "Auto-login failed, credentials cleared"
       (with_storage (delete AuthContext.STORAGE_KEY) w)).
Proof.
  intros Hstored Hne Hparse.
  assert (Htruthy : negb (truthy (JStr text)) = false).
  { simpl. by destruct (String.eqb_spec text EmptyString). }
  pose proof (removeItem_accessible AuthContext.STORAGE_KEY w
                (readable_item _ _ _ Hstored)) as Hremove.
  rw /AuthContext.tryAutoLogin /try_catch /mbind /Async_bind (getItem_read _ _ _ Hstored).
  cbv beta iota. rw Htruthy /JSON_parse_or_throw.
  destruct Hparse as [-> | ->]; by rw /= Hremove.
Qed.

(** X14. The empty string stored under the key is the one unusable
    item that stays: the silent re-login returns at once and changes
    nothing. *)
Theorem empty_item_is_left_in_place w :
  localStorage w !! AuthContext.STORAGE_KEY = Some EmptyString →
  AuthContext.tryAutoLogin w = (Normal tt, w).
Proof.
  intros Hstored. apply tryAutoLogin_nothing_stored; [|by right].
  exact (readable_item _ _ _ Hstored).
Qed.

(** X15. A logout whose server call resolved ends the silent re-login:
    a later reconciliation whose session check confirms no session makes
    that one request and leaves the user [null]. *)
Theorem logout_ends_silent_relogin w v :
  (ApiClient.logout api w).1 = Normal v →
  let signed_out := (AuthContext.logout w).2 in
  not_authenticated (ApiClient.checkAuth api signed_out).1 →
  issued AuthContext.checkAuth signed_out = [session_check_call]
  ∧ user (AuthContext.checkAuth signed_out).2 = JNull.
Proof.
  intros Hlogout signed_out Hno.
  assert (Hnone : localStorage signed_out !! AuthContext.STORAGE_KEY = None).
  { subst signed_out. rw /AuthContext.logout /try_catch /mbind /Async_bind.
    destruct (logout_world w) as [k Hk].
    destruct (ApiClient.logout api w) as [[?|?] w1]; simpl in *; [|done].
    subst w1. rw /localStorage_removeItem /=.
    destruct (access_error (localStorage w)) eqn:Hacc; simpl.
    - by destruct (localStorage w).
    - apply Storage_lookup_delete. }
  rw (checkAuth_without_relogin signed_out (or_introl Hnone) Hno) /=.
  split; [|done]. apply issued_record_fetch_list.
  by rw (checkAuth_without_relogin signed_out (or_introl Hnone) Hno) /= checkAuth_world.
Qed.

Lemma checkAuth_shape w :
  let after := (AuthContext.checkAuth w).2 in
  (issued AuthContext.checkAuth w = [session_check_call]
   ∨ ∃ username password,
       issued AuthContext.checkAuth w = [session_check_call; login_call username password])
  ∧ (localStorage after = localStorage w
     ∨ localStorage after = delete AuthContext.STORAGE_KEY (localStorage w))
  ∧ toasts after = toasts w.
Proof.
  destruct (ApiClient.checkAuth api w).1 as [response|e] eqn:E;
    [destruct (truthy (member "authenticated" response)) eqn:Hauth|].
  1: { rw /= (checkAuth_authenticated _ _ E Hauth) /= checkAuth_world /=.
       split; [left|by auto]. apply issued_record_fetch_list.
       by rw (checkAuth_authenticated _ _ E Hauth) /= checkAuth_world. }
  all: assert (Hno : not_authenticated (ApiClient.checkAuth api w).1) by (by rw E).
  all: destruct (anonymous_world w) as (Hl & Hf & Ht).
  all: destruct (access_error (localStorage w)) as [err|] eqn:Hacc.
  1,3: rw /= (checkAuth_denied _ _ Hacc Hno) /= checkAuth_world /=;
       (split; [left|by auto]); apply issued_record_fetch_list;
       by rw (checkAuth_denied _ _ Hacc Hno) /= checkAuth_world.
  all: destruct (tryAutoLogin_shape (set_user JNull (ApiClient.checkAuth api w).2))
         as (Hfetched & Hstorage & Htoasts & _).
  all: rw /= (checkAuth_not_authenticated _ Hacc Hno) /=.
  all: rw Hl in Hstorage; rw Ht in Htoasts; rw Hf in Hfetched.
  all: split; [|done].
  all: destruct Hfetched as [Hsame | (username & password & Hmore)].
  all: try (left; apply issued_record_fetch_list;
            rw (checkAuth_not_authenticated _ Hacc Hno) /=; by rw Hsame).
  all: right; exists username, password; apply issued_two;
       rw (checkAuth_not_authenticated _ Hacc Hno) /=; by rw Hmore.
Qed.

(** X17. Whatever is stored and whatever the network does, a
    reconciliation makes the session check and at most one login call
    after it, never more; it shows no toast; and it never writes a
    record: the storage it leaves is the one it found, or that one
    without the coordinator's key. *)
Theorem reconciliation_is_bounded_and_silent w :
  let after := (AuthContext.checkAuth w).2 in
  (issued AuthContext.checkAuth w = [session_check_call]
   ∨ ∃ username password,
       issued AuthContext.checkAuth w = [session_check_call; login_call username password])
  ∧ (localStorage after = localStorage w
     ∨ localStorage after = delete AuthContext.STORAGE_KEY (localStorage w))
  ∧ toasts after = toasts w.
Proof. apply checkAuth_shape. Qed.

(** X16. The coordinator reads and writes one storage key only: under
    any other key, [checkAuth], [login], [register] and [logout] leave
    what they found. *)
Theorem coordinator_touches_only_its_key key w :
  key ≠ AuthContext.STORAGE_KEY →
  localStorage (AuthContext.checkAuth w).2 !! key = localStorage w !! key
  ∧ (∀ username password rememberMe,
       localStorage (AuthContext.login username password rememberMe w).2 !! key
       = localStorage w !! key)
  ∧ (∀ username email password,
       localStorage (AuthContext.register username email password w).2 !! key
       = localStorage w !! key)
  ∧ localStorage (AuthContext.logout w).2 !! key = localStorage w !! key.
Proof.
  intros Hkey. split; [|split; [|split]].
  - destruct (checkAuth_shape w) as (_ & [-> | ->] & _); [done|].
    by apply Storage_lookup_delete_ne.
  - intros username password rememberMe.
    rw /AuthContext.login /try_catch /mbind /Async_bind /call_with_surplus run_login.
    destruct (ApiClient.login api _ _ w).1 as [response|e]; simpl; [|done].
    destruct response; simpl; try done; destruct (default false rememberMe); simpl;
      try done; rw /localStorage_setItem /=;
      (destruct (write_error (localStorage w)); simpl; [done|]);
      by apply Storage_lookup_insert_ne.
  - intros username email password.
    rw /AuthContext.register /try_catch /mbind /Async_bind.
    destruct (register_world username email password w) as [k Hk].
    destruct (ApiClient.register api username email password w) as [[response|e] w1];
      simpl in *; subst w1; [|done].
    by destruct response.
  - rw /AuthContext.logout /try_catch /mbind /Async_bind.
    destruct (logout_world w) as [k Hk].
    destruct (ApiClient.logout api w) as [[?|?] w1]; simpl in *; subst w1; [|done].
    rw /localStorage_removeItem /=.
    destruct (access_error (localStorage w)); simpl; [done|].
    by apply Storage_lookup_delete_ne.
Qed.

End CoordinatorBehaviour.

(** ** The earlier revisions *)

Section Earlier.
Context `{Runtime}.

Lemma earlier_request_world this endpoint options w :
  ∃ k, (EarlierApiClient.request this endpoint options w).2 = record_fetch k w
       ∧ signal (call_init k) = Some 10000
       ∧ credentials (call_init k) = Some "include"
       ∧ headers_of k !! "Content-Type"
         = Some (default "application/json"
                   (default ∅ (headers options) !! "Content-Type")).
Proof.
  eexists. split; [|split; [|split]].
  - rw /EarlierApiClient.request /try_catch /mbind /Async_bind /fetch /=.
    destruct (settle _ _) as [r|e]; simpl.
    + rw /Response_json. destruct (json r) as [data|e]; simpl.
      * destruct (negb (ok r)); simpl; [|reflexivity].
        destruct data; simpl; reflexivity.
      * destruct e as [name ?|?]; simpl; [destruct (String.eqb name _)|]; reflexivity.
    + destruct e as [name ?|?]; simpl; [destruct (String.eqb name _)|]; reflexivity.
  - done.
  - done.
  - rw /headers_of /= /spread lookup_union.
    destruct (default ∅ (headers options) !! "Content-Type") as [v|]; simpl.
    + by destruct (_ !! _).
    + by rw lookup_singleton_eq.
Qed.

(** X18. In the earlier client every method goes through one [request]
    whose abort timer is armed at 10000 ms whatever the operation; a
    request it aborts rejects with "Request timeout - please try again";
    and the JSON content type is set on every request that brings no
    content type of its own, a [FormData] body included. *)
Theorem earlier_runner_has_one_budget this endpoint options w :
  budgets (EarlierApiClient.request this endpoint options) w = [Some 10000]
  ∧ (10000 <= latency_of (next_outcome w) →
     (EarlierApiClient.request this endpoint options w).1
     = Throw (new_Error "Request timeout - please try again"))
  ∧ (∃ k, issued (EarlierApiClient.request this endpoint options) w = [k]
          ∧ credentials (call_init k) = Some "include"
          ∧ headers_of k !! "Content-Type"
            = Some (default "application/json"
                      (default ∅ (headers options) !! "Content-Type"))).
Proof.
  destruct (earlier_request_world this endpoint options w)
    as (k & Hk & Hsignal & Hcred & Hct).
  pose proof (issued_record_fetch _ _ _ Hk) as Hissued.
  split; [by rw /budgets Hissued /= Hsignal|]. split.
  - intros Hlate.
    rw /EarlierApiClient.request /try_catch /mbind /Async_bind /fetch /settle
       /timer_fires_first /=.
    by rw (proj2 (Z.leb_le _ _) Hlate).
  - by exists k.
Qed.

(** X19. The image upload of the earlier client takes no notice of the
    status: whenever the response arrives with a JSON body the call
    resolves with that body, an error status included. Its [fetch] has
    no abort signal, so no delay of the response makes it time out. *)
Theorem earlier_image_upload_ignores_status this image symptoms w t r data :
  next_outcome w = Responds t r → json r = Normal data →
  (EarlierApiClient.diagnoseImage this image symptoms w).1 = Normal data
  ∧ budgets (EarlierApiClient.diagnoseImage this image symptoms) w = [None].
Proof.
  intros Hnext Hjson.
  rw /budgets /issued /EarlierApiClient.diagnoseImage /mbind /Async_bind /fetch Hnext
     /settle /timer_fires_first /= /Response_json Hjson /=.
  by rw drop_app_length.
Qed.

(** X20. Stored credentials change nothing for who never stored any:
    with nothing under the coordinator's key, the reconciliation leaves
    the world that the earlier provider leaves, and where the storage can
    be read it is that of the earlier provider, completion included;
    and a [login] without [rememberMe], like every [register], is the
    earlier one in every world. *)
Theorem remember_me_is_conservative w :
  (localStorage w !! AuthContext.STORAGE_KEY = None →
   (AuthContext.checkAuth w).2 = (EarlierAuthContext.checkAuth w).2
   ∧ (access_error (localStorage w) = None →
      AuthContext.checkAuth w = EarlierAuthContext.checkAuth w))
  ∧ (∀ username password,
       AuthContext.login username password None w
       = EarlierAuthContext.login username password w)
  ∧ (∀ username password,
       AuthContext.login username password (Some false) w
       = EarlierAuthContext.login username password w)
  ∧ (∀ username email password,
       AuthContext.register username email password w
       = EarlierAuthContext.register username email password w).
Proof.
  split; [|split; [|split]].
  - intros Hnone.
    assert (Hrun : ∀ w', localStorage w' = localStorage w →
              AuthContext.tryAutoLogin w'
              = (match access_error (localStorage w) with
                 | None => Normal tt
                 | Some e => Throw e
                 end, w')).
    { intros w' Hw'. destruct (access_error (localStorage w)) eqn:Hacc.
      - apply tryAutoLogin_denied. by rw Hw'.
      - apply tryAutoLogin_nothing_stored; rw Hw'; auto. }
    rw /AuthContext.checkAuth /EarlierAuthContext.checkAuth /try_finally /try_catch
       /mbind /Async_bind.
    pose proof (checkAuth_world w) as Hk.
    destruct (ApiClient.checkAuth api w) as [[response|e] w1]; simpl in *; subst w1.
    + destruct response; simpl; try destruct (truthy _); simpl;
        rw ?(Hrun (set_user JNull (record_fetch session_check_call w)) eq_refl) /=;
        try done;
        destruct (access_error (localStorage w)); simpl;
        rw ?(Hrun (set_user JNull (set_user JNull (record_fetch session_check_call w)))
               eq_refl) /=;
        by destruct (access_error (localStorage w)).
    + rw (Hrun (set_user JNull (record_fetch session_check_call w)) eq_refl) /=.
      by destruct (access_error (localStorage w)).
  - intros. rw /AuthContext.login /EarlierAuthContext.login /try_catch /mbind /Async_bind
       /call_with_surplus /=.
    destruct (ApiClient.login api _ _ w) as [[response|e] w1]; simpl; [|done].
    by destruct response.
  - intros. rw /AuthContext.login /EarlierAuthContext.login /try_catch /mbind /Async_bind
       /call_with_surplus /=.
    destruct (ApiClient.login api _ _ w) as [[response|e] w1]; simpl; [|done].
    by destruct response.
  - done.
Qed.

End Earlier.

(** ** The pages *)

Section Pages.
Context `{Runtime}.

Ltac page_steps :=
  rw /page_try_finally /page_try_catch /mbind /Page_bind /in_world /set_state /navigate.

Ltac hnf_page := cbn -[Nat.leb Nat.ltb String.length].

Lemma logout_total w : (AuthContext.logout w).1 = Normal tt.
Proof.
  rw /AuthContext.logout /try_catch /mbind /Async_bind.
  destruct (ApiClient.logout api w) as [[?|?] w1]; simpl; [|done].
  rw /localStorage_removeItem /=. by destruct (access_error (localStorage w1)).
Qed.

Lemma failed_logout_keeps_user w e :
  (ApiClient.logout api w).1 = Throw e → user (AuthContext.logout w).2 = user w.
Proof.
  rw /AuthContext.logout /try_catch /mbind /Async_bind.
  destruct (logout_world w) as [k Hk].
  destruct (ApiClient.logout api w) as [[?|?] w1]; simpl in *; [done|].
  intros _. by subst w1.
Qed.

(** X21. The logout of the navigation bar always completes, goes to
    the home route and closes the sheet, whether the logout succeeded or
    not: when the server call fails the user is still signed in after
    the navigation. *)
Theorem navbar_logout_always_navigates ps :
  let after := (Navbar.handleLogout ps).2 in
  (Navbar.handleLogout ps).1 = Normal tt
  ∧ visited after = visited ps ++ ["/"]
  ∧ Navbar.isSheetOpen (state after) = false
  ∧ world after = (AuthContext.logout (world ps)).2
  ∧ (∀ e, (ApiClient.logout api (world ps)).1 = Throw e →
          user (world after) = user (world ps)).
Proof.
  assert (Hrun : Navbar.handleLogout ps
                 = (Normal tt,
                    mkPage {| Navbar.isSheetOpen := false;
                              Navbar.showBuyCredits := Navbar.showBuyCredits (state ps) |}
                           (visited ps ++ ["/"])
                           (AuthContext.logout (world ps)).2)).
  { rw /Navbar.handleLogout /Navbar.setIsSheetOpen. page_steps.
    pose proof (logout_total (world ps)) as Htotal.
    by destruct (AuthContext.logout (world ps)) as [[[]|?] ?]. }
  rw /= Hrun /=. repeat split. intros e He. by apply (failed_logout_keeps_user _ e).
Qed.

(** X22. Signing in from the sign-in page never throws and always
    ends with [loading] false; the page goes to the dashboard exactly
    when the coordinator's [login] completed, and stays where it is when
    [login] rethrew the failure. *)
Theorem sign_in_navigates_only_on_success s ps :
  let attempt := AuthContext.login (Auth.login_username (Auth.loginData s))
                                   (Auth.login_password (Auth.loginData s)) None
                                   (world ps) in
  let after := (Auth.handleLogin s ps).2 in
  (Auth.handleLogin s ps).1 = Normal tt
  ∧ Auth.loading (state after) = false
  ∧ world after = attempt.2
  ∧ visited after
    = visited ps ++ match attempt.1 with
                    | Normal _ => ["/dashboard"]
                    | Throw _ => []
                    end.
Proof.
  rw /Auth.handleLogin /Auth.setLoading. page_steps. simpl.
  destruct (AuthContext.login _ _ None (world ps)) as [[[]|e] w1]; simpl; [done|].
  by rw app_nil_r.
Qed.

(** X23. Registration from the sign-in page is gated by the form. With
    the strength checks up to date with the password, the handler calls
    the coordinator's [register] exactly when the username has 3 to 20
    characters, all of them letters, digits or underscores, the password
    has 8 characters or more with an upper-case letter, a lower-case
    letter, a digit and a special character, and the confirmation equals
    the password. Otherwise all it does is show one error toast: no
    request, no navigation, no change of state. It never throws. *)
Theorem registration_is_gated_by_the_form s ps :
  Auth.passwordStrength s = strength_of (Auth.password (Auth.registerData s)) →
  let data := Auth.registerData s in
  let valid :=
    (3 <= String.length (Auth.username data) <= 20)%nat
    ∧ every_char is_word_char (Auth.username data) = true
    ∧ (8 <= String.length (Auth.password data))%nat
    ∧ some_char is_upper (Auth.password data) = true
    ∧ some_char is_lower (Auth.password data) = true
    ∧ some_char is_digit (Auth.password data) = true
    ∧ some_char is_special (Auth.password data) = true
    ∧ Auth.password data = Auth.confirmPassword data in
  let attempt := AuthContext.register (Auth.username data) (Auth.email data)
                                      (Auth.password data) (world ps) in
  let after := (Auth.handleRegister s ps).2 in
  (Auth.handleRegister s ps).1 = Normal tt
  ∧ ((valid
      ∧ world after = attempt.2
      ∧ Auth.loading (state after) = false
      ∧ visited after = visited ps ++ match attempt.1 with
                                      | Normal _ => ["/dashboard"]
                                      | Throw _ => []
                                      end)
     ∨ (¬ valid
        ∧ ∃ message,
            after = mkPage (state ps) (visited ps)
                           (toasted (ToastError message) (world ps)))).
Proof.
  intros Hstrength data valid attempt after. subst valid attempt after data.
  rw /Auth.handleRegister Hstrength /every_check /strength_of /only_word_chars; hnf_page.
  destruct (Nat.ltb_spec (String.length (Auth.username (Auth.registerData s))) 3)
    as [Hshort|Hlong]; hnf_page.
  { page_steps. split; [done|]. right. split; [intros (Hr & _); lia|]. by eexists. }
  destruct (Nat.ltb_spec 20 (String.length (Auth.username (Auth.registerData s))))
    as [Hbig|Hfits]; hnf_page.
  { page_steps. split; [done|]. right. split; [intros (Hr & _); lia|]. by eexists. }
  destruct (String.eqb_spec (Auth.username (Auth.registerData s)) EmptyString)
    as [Hempty|_]; hnf_page.
  { rw Hempty /= in Hlong. lia. }
  destruct (every_char is_word_char (Auth.username (Auth.registerData s))) eqn:Hword;
    hnf_page.
  2: { page_steps. split; [done|]. right. split; [|by eexists].
       intros (_ & [=] & _). }
  destruct (Nat.leb_spec 8 (String.length (Auth.password (Auth.registerData s))))
    as [Hlen|Hlen]; hnf_page.
  2: { page_steps. split; [done|]. right. split; [intros (_ & _ & Hr & _); lia|].
       by eexists. }
  destruct (some_char is_upper _) eqn:Hup; hnf_page.
  2: { page_steps. split; [done|]. right. split; [|by eexists].
       intros (_ & _ & _ & [=] & _). }
  destruct (some_char is_lower _) eqn:Hlow; hnf_page.
  2: { page_steps. split; [done|]. right. split; [|by eexists].
       intros (_ & _ & _ & _ & [=] & _). }
  destruct (some_char is_digit _) eqn:Hdig; hnf_page.
  2: { page_steps. split; [done|]. right. split; [|by eexists].
       intros (_ & _ & _ & _ & _ & [=] & _). }
  destruct (some_char is_special _) eqn:Hspec; hnf_page.
  2: { page_steps. split; [done|]. right. split; [|by eexists].
       intros (_ & _ & _ & _ & _ & _ & [=] & _). }
  destruct (String.eqb_spec (Auth.password (Auth.registerData s))
                            (Auth.confirmPassword (Auth.registerData s)))
    as [Hsame|Hdiff]; hnf_page.
  2: { page_steps. split; [done|]. right. split; [|by eexists].
       intros (_ & _ & _ & _ & _ & _ & _ & Heq). done. }
  rw /Auth.setLoading. page_steps. hnf_page.
  destruct (AuthContext.register _ _ _ (world ps)) as [[[]|e] w1]; hnf_page.
  - split; [done|]. left. repeat split; try done; lia.
  - split; [done|]. left. rw app_nil_r. repeat split; try done; lia.
Qed.

(** X24. Verifying the reset token never throws and always ends with
    [verifying] false. Without a token in the URL (none, or the empty
    string) no request is made and the token counts as invalid. With a
    token, one verification call is made, and the token is valid as the
    [valid] member of the answer says; a call that fails, or that
    answers [null], makes it invalid. *)
Theorem reset_token_verification token ps :
  let after := (ResetPassword.verifyToken token ps).2 in
  (ResetPassword.verifyToken token ps).1 = Normal tt
  ∧ ResetPassword.verifying (state after) = false
  ∧ (absent token = true →
     world after = world ps
     ∧ ResetPassword.tokenValid (state after) = JBool false)
  ∧ (∀ text, token = Some text → text ≠ EmptyString →
     world after = (ApiClient.verifyResetToken api text (world ps)).2
     ∧ ResetPassword.tokenValid (state after)
       = match (ApiClient.verifyResetToken api text (world ps)).1 with
         | Normal (JUndefined | JNull) | Throw _ => JBool false
         | Normal result => member "valid" result
         end).
Proof.
  rw /ResetPassword.verifyToken /ResetPassword.setTokenValid /ResetPassword.setVerifying.
  destruct token as [text|]; [|by page_steps].
  destruct (String.eqb_spec text EmptyString) as [->|Hne].
  { page_steps. simpl. split; [done|]. split; [done|]. split; [done|].
    by intros ? [= <-] Hne. }
  assert (Htruthy : negb (truthy (JStr text)) = false).
  { simpl. by destruct (String.eqb_spec text EmptyString). }
  rw Htruthy /absent Htruthy. page_steps. simpl.
  destruct (ApiClient.verifyResetToken api text (world ps)) as [[result|e] w1] eqn:E; simpl.
  - destruct result; simpl;
      (split; [done|]; split; [done|]; split; [done|]);
      intros ? [= <-] _; by rw E.
  - split; [done|]. split; [done|]. split; [done|].
    intros ? [= <-] _. by rw E.
Qed.

(** X25. Submitting the new password is gated by the form. With the
    strength checks up to date with the password, the reset call is made
    exactly when the confirmation equals the password, the password has
    8 characters or more with an upper-case letter, a lower-case letter,
    a digit and a special character, and the URL carries a token. Then
    the page goes to the sign-in route exactly when the call resolved,
    shows the error's message when it failed, and ends with [loading]
    false. Otherwise one error toast is all that happens. *)
Theorem password_reset_is_gated_by_the_form token s ps :
  ResetPassword.passwordStrength s = strength_of (ResetPassword.password s) →
  let valid :=
    ResetPassword.password s = ResetPassword.confirmPassword s
    ∧ (8 <= String.length (ResetPassword.password s))%nat
    ∧ some_char is_upper (ResetPassword.password s) = true
    ∧ some_char is_lower (ResetPassword.password s) = true
    ∧ some_char is_digit (ResetPassword.password s) = true
    ∧ some_char is_special (ResetPassword.password s) = true
    ∧ absent token = false in
  let after := (ResetPassword.handleSubmit token s ps).2 in
  (ResetPassword.handleSubmit token s ps).1 = Normal tt
  ∧ ((valid
      ∧ ∃ text, token = Some text
          ∧ ResetPassword.loading (state after) = false
          ∧ match (ApiClient.resetPassword api text (ResetPassword.password s) (world ps)).1 with
            | Normal _ =>
                visited after = visited ps ++ ["/auth"]
                ∧ world after
                  = toasted (ToastSuccess "Password reset successful!")
                      (ApiClient.resetPassword api text (ResetPassword.password s)
                         (world ps)).2
            | Throw e =>
                visited after = visited ps
                ∧ world after
                  = toasted (ToastError
                               (AuthContext.message_or e "Failed to reset password"))
                      (ApiClient.resetPassword api text (ResetPassword.password s)
                         (world ps)).2
            end)
     ∨ (¬ valid
        ∧ ∃ message,
            after = mkPage (state ps) (visited ps)
                           (toasted (ToastError message) (world ps)))).
Proof.
  intros Hstrength valid after. subst valid after.
  rw /ResetPassword.handleSubmit Hstrength /every_check /strength_of /absent; hnf_page.
  destruct (String.eqb_spec (ResetPassword.password s) (ResetPassword.confirmPassword s))
    as [Hsame|Hdiff]; hnf_page.
  2: { page_steps. split; [done|]. right. split; [|by eexists]. by intros (Heq & _). }
  destruct (Nat.leb_spec 8 (String.length (ResetPassword.password s)))
    as [Hlen|Hlen]; hnf_page.
  2: { page_steps. split; [done|]. right. split; [intros (_ & Hr & _); lia|].
       by eexists. }
  destruct (some_char is_upper _) eqn:Hup; hnf_page.
  2: { page_steps. split; [done|]. right. split; [|by eexists].
       intros (_ & _ & [=] & _). }
  destruct (some_char is_lower _) eqn:Hlow; hnf_page.
  2: { page_steps. split; [done|]. right. split; [|by eexists].
       intros (_ & _ & _ & [=] & _). }
  destruct (some_char is_digit _) eqn:Hdig; hnf_page.
  2: { page_steps. split; [done|]. right. split; [|by eexists].
       intros (_ & _ & _ & _ & [=] & _). }
  destruct (some_char is_special _) eqn:Hspec; hnf_page.
  2: { page_steps. split; [done|]. right. split; [|by eexists].
       intros (_ & _ & _ & _ & _ & [=] & _). }
  destruct token as [text|].
  2: { page_steps. split; [done|]. right. split; [|by eexists].
       intros (_ & _ & _ & _ & _ & _ & [=]). }
  destruct (String.eqb text EmptyString) eqn:Hempty; hnf_page.
  { page_steps. split; [done|]. right. split; [|by eexists].
    intros (_ & _ & _ & _ & _ & _ & [=]). }
  rw /ResetPassword.setLoading. page_steps. hnf_page.
  destruct (ApiClient.resetPassword api text _ (world ps)) as [[v|e] w1] eqn:E; hnf_page.
  - split; [done|]. left. split; [done|]. exists text. by rw E.
  - split; [done|]. left. split; [done|]. exists text. by rw E.
Qed.

(** X26. The feedback form sends its one request exactly when the
    name, the email and the message are all non-empty; otherwise the
    only effect is the toast asking to fill in all fields. After a
    request the form is no longer submitting; its three fields are
    cleared when the call resolved and kept when it failed, with the
    error's message in a toast. The handler never throws. *)
Theorem feedback_is_sent_only_when_complete s ps :
  let complete :=
    FeedbackForm.name s ≠ EmptyString ∧ FeedbackForm.email s ≠ EmptyString
    ∧ FeedbackForm.message s ≠ EmptyString in
  let call := ApiClient.submitFeedback api (FeedbackForm.name s) (FeedbackForm.email s)
                (FeedbackForm.message s) (world ps) in
  let after := (FeedbackForm.handleSubmit s ps).2 in
  (FeedbackForm.handleSubmit s ps).1 = Normal tt
  ∧ ((complete
      ∧ FeedbackForm.isSubmitting (state after) = false
      ∧ match call.1 with
        | Normal _ =>
            FeedbackForm.name (state after) = EmptyString
            ∧ FeedbackForm.email (state after) = EmptyString
            ∧ FeedbackForm.message (state after) = EmptyString
            ∧ world after
              = toasted (ToastSuccess "Thank you for your feedback! We'll be in touch soon.")
                        call.2
        | Throw e =>
            FeedbackForm.name (state after) = FeedbackForm.name (state ps)
            ∧ FeedbackForm.email (state after) = FeedbackForm.email (state ps)
            ∧ FeedbackForm.message (state after) = FeedbackForm.message (state ps)
            ∧ world after
              = toasted (ToastError
                           (AuthContext.message_or e
                              "Failed to send feedback. Please try again later."))
                        call.2
        end)
     ∨ (¬ complete
        ∧ after = mkPage (state ps) (visited ps)
                         (toasted (ToastError "Please fill in all fields") (world ps)))).
Proof.
  intros complete call after. subst complete call after.
  rw /FeedbackForm.handleSubmit /=.
  destruct (String.eqb_spec (FeedbackForm.name s) EmptyString) as [Hn|Hn]; simpl.
  { page_steps. split; [done|]. right. split; [|done]. by intros (? & _). }
  destruct (String.eqb_spec (FeedbackForm.email s) EmptyString) as [He|He]; simpl.
  { page_steps. split; [done|]. right. split; [|done]. by intros (_ & ? & _). }
  destruct (String.eqb_spec (FeedbackForm.message s) EmptyString) as [Hm|Hm]; simpl.
  { page_steps. split; [done|]. right. split; [|done]. by intros (_ & _ & ?). }
  rw /FeedbackForm.setIsSubmitting /FeedbackForm.setName /FeedbackForm.setEmail
     /FeedbackForm.setMessage. page_steps. simpl.
  destruct (ApiClient.submitFeedback api _ _ _ (world ps)) as [[v|e] w1]; simpl;
    (split; [done|]); left; done.
Qed.

(** Where the storage can be accessed the reconciliation completes
    normally, whatever the session check and the silent re-login do. *)
Lemma checkAuth_total w :
  access_error (localStorage w) = None → (AuthContext.checkAuth w).1 = Normal tt.
Proof.
  intros Hacc.
  destruct (ApiClient.checkAuth api w).1 as [response|e] eqn:E.
  - destruct (truthy (member "authenticated" response)) eqn:Hauth.
    + by rw (checkAuth_authenticated _ _ E Hauth).
    + rw checkAuth_not_authenticated; [done|done|by rw E].
  - rw checkAuth_not_authenticated; [done|done|by rw E].
Qed.

(** X27. Saving the profile always ends with [loading] false and never
    throws. When the update call fails, its message is shown, the page
    stays in edit mode and no reconciliation is run. When it resolves,
    the coordinator's [checkAuth] runs on the world the update left. If
    the reconciliation completes, which it does wherever the storage can
    be accessed, the success toast follows whatever it found and the
    page leaves edit mode; if it throws, the page shows that error in a
    toast and stays in edit mode, although the profile was updated. *)
Theorem profile_update_is_followed_by_reconciliation s ps :
  let update := ApiClient.updateProfile api
                  (JObj [("username", JStr (Profile.username (Profile.profileData s)));
                         ("email", JStr (Profile.email (Profile.profileData s)))])
                  (world ps) in
  let refresh := AuthContext.checkAuth update.2 in
  let after := (Profile.handleUpdate s ps).2 in
  (Profile.handleUpdate s ps).1 = Normal tt
  ∧ Profile.loading (state after) = false
  ∧ match update.1 with
    | Normal _ =>
        match refresh.1 with
        | Normal _ =>
            world after
            = toasted (ToastSuccess "Profile updated successfully!") refresh.2
            ∧ Profile.editMode (state after) = false
        | Throw e =>
            world after
            = toasted (ToastError (AuthContext.message_or e "Failed to update profile"))
                      refresh.2
            ∧ Profile.editMode (state after) = Profile.editMode (state ps)
        end
        ∧ (access_error (localStorage (world ps)) = None → refresh.1 = Normal tt)
    | Throw e =>
        world after
        = toasted (ToastError (AuthContext.message_or e "Failed to update profile"))
                  update.2
        ∧ Profile.editMode (state after) = Profile.editMode (state ps)
    end.
Proof.
  intros update refresh after. subst update refresh after.
  rw /Profile.handleUpdate /Profile.setLoading /Profile.setEditMode. page_steps. simpl.
  destruct (invoke_world (UpdateProfile (JObj
              [("username", JStr (Profile.username (Profile.profileData s)));
               ("email", JStr (Profile.email (Profile.profileData s)))])) (world ps))
    as [k Hk]. simpl in Hk.
  destruct (ApiClient.updateProfile api _ (world ps)) as [[v|e] w1]; simpl in *; [|done].
  assert (Htotal : access_error (localStorage (world ps)) = None →
                   (AuthContext.checkAuth w1).1 = Normal tt).
  { intros Hacc. apply checkAuth_total. by subst w1. }
  by destruct (AuthContext.checkAuth w1) as [[[]|?] w2].
Qed.

Section DiagnosePage.
Variable updateCredits : JsVal → Async unit.

Lemma diagnose_world symptoms w :
  ∃ k, (ApiClient.diagnose api symptoms w).2 = record_fetch k w.
Proof. eexists. apply requestWithTimeout_world. Qed.

Lemma diagnoseImage_call_world image symptoms w :
  ∃ k, (ApiClient.diagnoseImage api image symptoms w).2 = record_fetch k w.
Proof. eexists. apply diagnoseImage_world. Qed.

(** X28. The two diagnosis handlers report a timeout differently. An
    image analysis aborted by its timer is shown with the page's own
    timeout toast; a text diagnosis aborted by the runner's timer is
    not, because the runner's message does not contain the word
    [timeout]: it is shown as a plain failure with the runner's
    message. *)
Theorem diagnosis_timeouts_are_reported_differently s ps :
  (blank (Diagnose.symptoms s) = false →
   60000 <= latency_of (next_outcome (world ps)) →
   toasts (world (Diagnose.handleTextDiagnosis updateCredits s ps).2)
   = toasts (world ps)
     ++ [ToastError "Diagnosis failed: The request is taking longer than expected. Please try again."])
  ∧ (Diagnose.selectedImages s ≠ [] →
     90000 <= latency_of (next_outcome (world ps)) →
     toasts (world (Diagnose.handleImageDiagnosis updateCredits s ps).2)
     = toasts (world ps)
       ++ [ToastError "Image analysis is taking longer than expected. Please try again with a smaller image or check your connection."]).
Proof.
  split.
  - intros Hblank Hlate.
    rw /Diagnose.handleTextDiagnosis Hblank /Diagnose.setLoading /Diagnose.setResult
       /Diagnose.setShowBuyCredits. page_steps. simpl.
    pose proof (requestWithTimeout_aborted api "/api/diagnose"
                  (ApiClient.json_request "POST"
                     (JObj [("symptoms", JStr (Diagnose.symptoms s))]))
                  60000 (world ps) Hlate) as Hthrown.
    destruct (diagnose_world (Diagnose.symptoms s) (world ps)) as [k Hk].
    fold (ApiClient.diagnose api (Diagnose.symptoms s)) in Hthrown.
    destruct (ApiClient.diagnose api (Diagnose.symptoms s) (world ps)) as [c w1].
    simpl in *. subst c w1. reflexivity.
  - intros Hsome Hlate.
    rw /Diagnose.handleImageDiagnosis.
    destruct (Diagnose.selectedImages s) as [|image rest]; [done|].
    rw /Diagnose.setLoading /Diagnose.setResult /Diagnose.setShowBuyCredits.
    page_steps. simpl.
    pose proof (diagnoseImage_aborted api image (Some (Diagnose.symptoms s))
                  (world ps) Hlate) as Hthrown.
    destruct (diagnoseImage_call_world image (Some (Diagnose.symptoms s)) (world ps))
      as [k Hk].
    destruct (ApiClient.diagnoseImage api image _ (world ps)) as [c w1].
    simpl in *. subst c w1. reflexivity.
Qed.

(** X29. When a text diagnosis is refused with a message that mentions
    insufficient credits, the handler shows the credits toast and opens
    the purchase dialog, whatever else the message contains; it ends
    with [loading] false and without an error for its caller. *)
Theorem insufficient_credits_open_the_purchase_dialog s ps e :
  blank (Diagnose.symptoms s) = false →
  (ApiClient.diagnose api (Diagnose.symptoms s) (world ps)).1 = Throw e →
  includes (AuthContext.message_or e "Diagnosis failed") "Insufficient credits" = true
  ∨ includes (AuthContext.message_or e "Diagnosis failed") "insufficient_credits" = true →
  let after := (Diagnose.handleTextDiagnosis updateCredits s ps).2 in
  (Diagnose.handleTextDiagnosis updateCredits s ps).1 = Normal tt
  ∧ Diagnose.showBuyCredits (state after) = true
  ∧ Diagnose.loading (state after) = false
  ∧ toasts (world after)
    = toasts (world ps)
      ++ [ToastError "Insufficient credits! Please purchase more credits to continue."].
Proof.
  intros Hblank Hthrown Hcredits after. subst after.
  assert (Hguard : includes (AuthContext.message_or e "Diagnosis failed") "Insufficient credits"
                   || includes (AuthContext.message_or e "Diagnosis failed")
                        "insufficient_credits" = true).
  { apply orb_true_iff. by destruct Hcredits; [left|right]. }
  rw /Diagnose.handleTextDiagnosis Hblank /Diagnose.setLoading /Diagnose.setResult
     /Diagnose.setShowBuyCredits. page_steps.
  cbn -[includes AuthContext.message_or orb ApiClient.diagnose].
  destruct (diagnose_world (Diagnose.symptoms s) (world ps)) as [k Hk].
  destruct (ApiClient.diagnose api (Diagnose.symptoms s) (world ps)) as [c w1].
  cbn [fst snd] in *. subst c w1.
  cbn -[includes AuthContext.message_or orb]. rw Hguard. by cbn.
Qed.

(** X30. The text diagnosis handler is safe against every failure:
    whatever the network does, whatever the answer looks like and
    whatever [updateCredits] does, a failure of its own included, the
    handler completes without an error for its caller, and once it has
    started a request it leaves [loading] false. *)
Theorem text_diagnosis_never_throws s ps :
  let after := (Diagnose.handleTextDiagnosis updateCredits s ps).2 in
  (Diagnose.handleTextDiagnosis updateCredits s ps).1 = Normal tt
  ∧ (blank (Diagnose.symptoms s) = false → Diagnose.loading (state after) = false).
Proof.
  rw /Diagnose.handleTextDiagnosis /Diagnose.setLoading /Diagnose.setResult
     /Diagnose.setShowBuyCredits.
  destruct (blank (Diagnose.symptoms s)); [by page_steps|].
  page_steps. cbn -[includes ApiClient.diagnose].
  destruct (ApiClient.diagnose api (Diagnose.symptoms s) (world ps)) as [[response|e] w1];
    cbn -[includes].
  - destruct response; cbn -[includes];
      repeat (match goal with
              | |- context [updateCredits ?v ?w] =>
                  destruct (updateCredits v w) as [[[]|?] ?]; cbn -[includes]
              | |- context [if ?b then _ else _] => destruct b; cbn -[includes]
              | |- context [Diagnose.defined ?v] =>
                  destruct (Diagnose.defined v); cbn -[includes]
              end); done.
  - repeat (match goal with
            | |- context [if ?b then _ else _] => destruct b; cbn -[includes]
            end); done.
Qed.

End DiagnosePage.

End Pages.

(** ** More worked examples on the sample runtime *)

Section MoreExamples.
#[local] Existing Instance sample_runtime.

Lemma answered_call_witness :
  (invoke (Diagnose "fever and sore throat") answered_diagnosis).1 = Normal diagnosis_body.
Proof.
  apply (answered_call_resolves_with_body (Diagnose "fever and sore throat")
           answered_diagnosis 2500 (mkResponse 200 (Normal diagnosis_body))).
  - reflexivity.
  - simpl. lia.
  - simpl. lia.
  - reflexivity.
Defined.

Lemma errors_reach_the_caller_witness :
  (invoke HealthCheck offline).1 = Throw (ErrorObj "TypeError" "Failed to fetch").
Proof.
  assert (Hname : "TypeError" ≠ "AbortError") by discriminate.
  apply (proj1 (errors_reach_the_caller_unchanged HealthCheck offline
                  "TypeError" "Failed to fetch" Hname) 15).
  - reflexivity.
  - simpl. lia.
Defined.

Lemma aborted_image_analysis_witness :
  (ApiClient.diagnoseImage api rash None stalled_analysis).1
  = Throw (new_Error "Image analysis timeout - please try again").
Proof.
  assert (Hlate : 90000 <= latency_of (next_outcome stalled_analysis)) by (simpl; lia).
  exact (proj1 (aborted_image_analysis_has_its_own_message rash None stalled_analysis Hlate)).
Defined.

Lemma login_stores_record_witness :
  user (AuthContext.login "alice" "s3cret" (Some true) accepting).2 = alice
  ∧ localStorage (AuthContext.login "alice" "s3cret" (Some true) accepting).2
    = {[AuthContext.STORAGE_KEY := alice_record]}.
Proof.
  pose proof (login_stores_record_only_when_asked "alice" "s3cret" (Some true) accepting
                (JObj [("message", JStr "Login successful"); ("user", alice)]))
    as Hlogin.
  destruct Hlogin as (Huser & _ & Hstore).
  - reflexivity.
  - split; discriminate.
  - split; [exact Huser|].
    destruct (Hstore eq_refl) as (_ & Hrecord & _). rw Hrecord. reflexivity.
Defined.

(** The same login from a browser whose storage is full: the session
    is open and the user is set, yet [login] rejects with the error of
    [setItem], shown in a toast, and nothing is stored. *)
Example login_with_full_storage :
  AuthContext.login "alice" "s3cret" (Some true) full_storage
  = (Throw QuotaExceededError,
     toasted (ToastError "The quota has been exceeded.")
       (set_user alice
          (record_fetch (login_call (JStr "alice") (JStr "s3cret")) full_storage))).
Proof. vm_compute. reflexivity. Qed.


(** C8, at the failing input. On a first visit from a browser that
    blocks site data, with the session check answered "not
    authenticated", [checkAuth] sets [loading] to false and then rejects:
    the [SecurityError] thrown by [removeItem] in the [catch] block of the
    silent re-login reaches its caller. *)
Theorem reconciliation_rejects_where_storage_is_denied :
  AuthContext.checkAuth blocked_visit
  = (Throw SecurityError,
     set_loading false (set_user JNull (record_fetch session_check_call blocked_visit)))
  ∧ loading (AuthContext.checkAuth blocked_visit).2 = false.
Proof. vm_compute. done. Qed.

(** The sibling path: [logout] calls [removeItem] inside its [try],
    and absorbs the same exception. *)
Example logout_absorbs_denied_storage :
  (AuthContext.logout blocked_leaving).1 = Normal tt
  ∧ user (AuthContext.logout blocked_leaving).2 = JNull
  ∧ toasts (AuthContext.logout blocked_leaving).2 = [ToastError "Logout failed"].
Proof. vm_compute. done. Qed.

(** Saving the profile from a browser that blocks site data: the
    update went through, the reconciliation after it threw, and the page
    reports a failure and stays in edit mode. *)
Example profile_saved_with_denied_storage :
  let after := (Profile.handleUpdate editing_profile
                  (on_page editing_profile blocked_profile)).2 in
  length (fetched (world after)) = 2%nat
  ∧ toasts (world after) = [ToastError "The operation is insecure."]
  ∧ Profile.editMode (state after) = true
  ∧ Profile.loading (state after) = false.
Proof. vm_compute. done. Qed.

Lemma failed_login_witness :
  (AuthContext.login "alice" "wrong" None denied_login).1
  = Throw (new_Error "Invalid credentials")
  ∧ toasts (AuthContext.login "alice" "wrong" None denied_login).2
    = [ToastError "Invalid credentials"].
Proof.
  pose proof (failed_login_is_rethrown "alice" "wrong" None denied_login
                (new_Error "Invalid credentials")) as Hfailed.
  destruct Hfailed as (Hthrown & _ & _ & Htoast).
  - reflexivity.
  - split; [exact Hthrown|exact Htoast].
Defined.

Lemma remembered_login_witness :
  issued AuthContext.checkAuth
    (mount (localStorage (AuthContext.login "alice" "s3cret" (Some true) accepting).2)
           [Responds 30 not_signed_in; Responds 80 welcome])
  = [session_check_call; login_call (JStr "alice") (JStr "s3cret")].
Proof.
  apply (remembered_login_is_replayed "alice" "s3cret" accepting
           [Responds 30 not_signed_in; Responds 80 welcome]).
  - discriminate.
  - discriminate.
  - reflexivity.
  - reflexivity.
  - reflexivity.
Defined.

Lemma confirmed_session_witness :
  user (AuthContext.checkAuth live_session).2 = alice
  ∧ issued AuthContext.checkAuth live_session = [session_check_call]
  ∧ localStorage (AuthContext.checkAuth live_session).2 = localStorage live_session.
Proof.
  pose proof (confirmed_session_needs_no_relogin live_session
                (JObj [("authenticated", JBool true); ("user", alice)])) as Hsession.
  destruct Hsession as (Huser & Hissued & Hstore & _).
  - reflexivity.
  - reflexivity.
  - split; [exact Huser|]. split; [exact Hissued|exact Hstore].
Defined.

Lemma no_record_witness :
  user (AuthContext.checkAuth first_visit).2 = JNull
  ∧ issued AuthContext.checkAuth first_visit = [session_check_call].
Proof.
  pose proof (no_record_means_no_relogin first_visit) as Hnone.
  destruct Hnone as (Huser & Hissued & _).
  - reflexivity.
  - reflexivity.
  - split; [exact Huser|exact Hissued].
Defined.

Lemma unreadable_record_witness :
  AuthContext.tryAutoLogin garbled_record
  = (Normal tt,
     logged "Auto-login failed, credentials cleared"
       (with_storage (delete AuthContext.STORAGE_KEY) garbled_record)).
Proof.
  apply (unreadable_record_is_erased garbled_record "not json").
  - reflexivity.
  - discriminate.
  - left. reflexivity.
Defined.

Lemma empty_item_witness :
  AuthContext.tryAutoLogin emptied_record = (Normal tt, emptied_record).
Proof. apply (empty_item_is_left_in_place emptied_record). reflexivity. Defined.

Lemma logout_ends_silent_relogin_witness :
  issued AuthContext.checkAuth (AuthContext.logout leaving).2 = [session_check_call]
  ∧ user (AuthContext.checkAuth (AuthContext.logout leaving).2).2 = JNull.
Proof.
  apply (logout_ends_silent_relogin leaving (JObj [("message", JStr "bye")])).
  - reflexivity.
  - reflexivity.
Defined.

Lemma other_keys_witness :
  localStorage (AuthContext.checkAuth revoked_user).2 !! "theme"
  = localStorage revoked_user !! "theme".
Proof.
  assert (Hkey : "theme" ≠ AuthContext.STORAGE_KEY) by discriminate.
  exact (proj1 (coordinator_touches_only_its_key "theme" revoked_user Hkey)).
Defined.

Lemma earlier_image_upload_witness :
  (EarlierApiClient.diagnoseImage (EarlierApiClient.new "http://localhost:5000")
     rash None late_refusal).1
  = Normal (JObj [("error", JStr "Internal error")]).
Proof.
  exact (proj1 (earlier_image_upload_ignores_status
                  (EarlierApiClient.new "http://localhost:5000") rash None late_refusal
                  120000
                  (mkResponse 500 (Normal (JObj [("error", JStr "Internal error")])))
                  (JObj [("error", JStr "Internal error")]) eq_refl eq_refl)).
Defined.

Lemma registration_witness :
  (Auth.handleRegister sign_up_form (on_page sign_up_form accepting)).1 = Normal tt.
Proof.
  exact (proj1 (registration_is_gated_by_the_form sign_up_form
                  (on_page sign_up_form accepting) eq_refl)).
Defined.

Lemma password_reset_witness :
  (ResetPassword.handleSubmit (Some "tok123") new_password_form
     (on_page new_password_form accepting)).1 = Normal tt.
Proof.
  exact (proj1 (password_reset_is_gated_by_the_form (Some "tok123") new_password_form
                  (on_page new_password_form accepting) eq_refl)).
Defined.

Lemma insufficient_credits_witness :
  Diagnose.showBuyCredits
    (state (Diagnose.handleTextDiagnosis (fun _ => mret tt) symptoms_form
              (on_page symptoms_form no_credits)).2) = true.
Proof.
  pose proof (insufficient_credits_open_the_purchase_dialog (fun _ => mret tt)
                symptoms_form (on_page symptoms_form no_credits)
                (new_Error "Insufficient credits. Please purchase more.")) as Hcredits.
  destruct Hcredits as (_ & Hopen & _).
  - reflexivity.
  - reflexivity.
  - left. reflexivity.
  - exact Hopen.
Defined.

Example registration_is_sent :
  page_issued (Auth.handleRegister sign_up_form) (on_page sign_up_form accepting)
  = [mkCall "http://localhost:5000/api/register"
       (runner_init (ApiClient.json_request "POST"
                       (JObj [("username", JStr "alice_01");
                              ("email", JStr "alice@example.org");
                              ("password", JStr "S3cret!pw")])) 10000)]
  ∧ visited (Auth.handleRegister sign_up_form (on_page sign_up_form accepting)).2
    = ["/dashboard"].
Proof. split; reflexivity. Qed.

Example whitespace_is_not_a_symptom :
  blank (String (Ascii.ascii_of_nat 32) (String (Ascii.ascii_of_nat 9) EmptyString)) = true
  ∧ blank " fever " = false
  ∧ includes "The request is taking longer than expected. Please try again." "timeout"
    = false
  ∧ includes "Image analysis timeout - please try again" "timeout" = true
  ∧ includes "Network error occurred" "network" = false.
Proof. repeat split; reflexivity. Qed.

Example strength_of_sample_password :
  every_check (strength_of "S3cret!pw") = true
  ∧ every_check (strength_of "s3cret!pw") = false
  ∧ every_check (strength_of "S3cretpw0") = false
  ∧ every_check (strength_of ("S3cret" +:+ quote_mark +:+ "w")) = true
  ∧ every_check (strength_of "S3c!etp") = false.
Proof. repeat split; reflexivity. Qed.

End MoreExamples.
